(** * cookpad-py: the decoder of [cookpad/types.py] and the client of
    [cookpad/client.py], embedded in Rocq.

    Python values that reach the decoder come from [resp.json()]: they are
    [None], booleans, integers, strings, lists and dicts.  JSON numbers are
    taken to be integers; a dict is an association list read from the left,
    as a dict built from JSON text has one binding per key.  The dataclasses
    of [types.py] check nothing at construction, so a field holds whatever
    value the decoder puts in it: fields are typed [json] unless the code
    builds the value itself.  An exception is a value of [exn]; code that can
    raise returns a [result]. *)

From Stdlib Require Import ZArith String Ascii List Bool DecimalString Lia.
From Stdlib Require Import DecimalPos DecimalZ.
From stdpp Require Import base option gmap strings list.
Import ListNotations.
Open Scope string_scope.
Open Scope Z_scope.

(** ** Python values *)

#[warnings="-register-all"]
Inductive json : Type :=
| JNull
| JBool (b : bool)
| JNum (n : Z)
| JStr (s : string)
| JArr (items : list json)
| JObj (fields : list (string * json)).

(** ** Exceptions *)

(** The classes of [cookpad/exceptions.py] and the built-in ones the modelled
    code can raise. *)
Inductive exc_class : Type :=
| Exception
| LookupError
| ValueError
| TypeError
| AttributeError
| KeyError
| RuntimeError
| JSONDecodeError
| TransportFailure
| CookpadError
| AuthenticationError
| NotFoundError
| RateLimitError
| APIError.

(** The base named in each [class] statement; [Exception] is the root here. *)
Definition exc_base (c : exc_class) : option exc_class :=
  match c with
  | Exception => None
  | LookupError | ValueError | TypeError | AttributeError
  | RuntimeError | TransportFailure => Some Exception
  | KeyError => Some LookupError
  | JSONDecodeError => Some ValueError
  | CookpadError => Some Exception
  | AuthenticationError | NotFoundError | RateLimitError | APIError =>
      Some CookpadError
  end.

Definition exc_class_eqb (a b : exc_class) : bool :=
  match a, b with
  | Exception, Exception | LookupError, LookupError
  | ValueError, ValueError | TypeError, TypeError
  | AttributeError, AttributeError | KeyError, KeyError
  | RuntimeError, RuntimeError | JSONDecodeError, JSONDecodeError
  | TransportFailure, TransportFailure | CookpadError, CookpadError
  | AuthenticationError, AuthenticationError
  | NotFoundError, NotFoundError | RateLimitError, RateLimitError
  | APIError, APIError => true
  | _, _ => false
  end.

(** [issubclass c d], by walking the chain of bases (no chain is longer
    than three). *)
Fixpoint issubclass_fuel (fuel : nat) (c d : exc_class) : bool :=
  exc_class_eqb c d ||
  match fuel with
  | O => false
  | S fuel' =>
      match exc_base c with
      | Some b => issubclass_fuel fuel' b d
      | None => false
      end
  end.

Definition issubclass : exc_class -> exc_class -> bool := issubclass_fuel 3.

(** A raised exception: its class, its message ([str(e)]) and, for
    [APIError], the [status_code] attribute set by its [__init__].  The
    message of an exception raised by the interpreter is not modelled and is
    left empty, except that a [KeyError] carries the missing key. *)
Record exn : Type := Raised {
  exn_class : exc_class;
  exn_message : string;
  exn_status_code : option Z
}.

Definition builtin_exc (c : exc_class) : exn := Raised c "" None.

Inductive result (A : Type) : Type :=
| Ok (a : A)
| Raise (e : exn).
Arguments Ok {A} a.
Arguments Raise {A} e.

Definition bind {A B} (m : result A) (k : A -> result B) : result B :=
  match m with
  | Ok a => k a
  | Raise e => Raise e
  end.

(** [f <$> m]: the value of [f] on what [m] returns. *)
#[global] Instance result_fmap : FMap result :=
  fun A B f m =>
    match m with
    | Ok a => Ok (f a)
    | Raise e => Raise e
    end.

Notation "'do' x <- m ; k" := (bind m (fun x => k))
  (at level 10, x name, m at level 100, k at level 200,
   format "'[v' 'do'  x  <-  m ; '/' k ']'").

(** A list comprehension [[f(x) for x in xs]] whose body can raise: the
    elements are visited from the left and the first exception ends it. *)
Fixpoint traverse {A B} (f : A -> result B) (xs : list A) : result (list B) :=
  match xs with
  | [] => Ok []
  | x :: rest =>
      do y <- f x;
      do ys <- traverse f rest;
      Ok (y :: ys)
  end.

(** ** The Python operations the decoder uses *)

Fixpoint dict_lookup (k : string) (fields : list (string * json)) : option json :=
  match fields with
  | [] => None
  | (k', v) :: rest => if String.eqb k k' then Some v else dict_lookup k rest
  end.

Definition dict_has (k : string) (fields : list (string * json)) : bool :=
  match dict_lookup k fields with Some _ => true | None => false end.

(** [v.get(k, d)]: only a dict has [get]. *)
Definition py_get (v : json) (k : string) (d : json) : result json :=
  match v with
  | JObj fields => Ok (default d (dict_lookup k fields))
  | _ => Raise (builtin_exc AttributeError)
  end.

(** [v[k]] for a string key [k]. *)
Definition py_getitem (v : json) (k : string) : result json :=
  match v with
  | JObj fields =>
      match dict_lookup k fields with
      | Some x => Ok x
      | None => Raise (Raised KeyError k None)
      end
  | _ => Raise (builtin_exc TypeError)
  end.

(** [x == s] for a string literal [s]: only an equal string is equal. *)
Definition py_eq_str (x : json) (s : string) : bool :=
  match x with
  | JStr t => String.eqb t s
  | _ => false
  end.

Fixpoint substringb (needle hay : string) : bool :=
  String.prefix needle hay ||
  match hay with
  | EmptyString => false
  | String _ rest => substringb needle rest
  end.

(** [k in v] for a string [k]: key membership in a dict, substring test in a
    string, element membership in a list; the other values are not
    containers. *)
Definition py_contains (k : string) (v : json) : result bool :=
  match v with
  | JObj fields => Ok (dict_has k fields)
  | JStr s => Ok (substringb k s)
  | JArr items => Ok (existsb (fun x => py_eq_str x k) items)
  | _ => Raise (builtin_exc TypeError)
  end.

Fixpoint chars (s : string) : list json :=
  match s with
  | EmptyString => []
  | String c rest => JStr (String c EmptyString) :: chars rest
  end.

(** The elements [for x in v] visits: the items of a list, the keys of a
    dict, the characters of a string (here its bytes; every loop body
    below raises on a string element either way).  [None], booleans and
    integers are not iterable. *)
Definition py_iter (v : json) : result (list json) :=
  match v with
  | JArr items => Ok items
  | JObj fields => Ok (map (fun kv => JStr (fst kv)) fields)
  | JStr s => Ok (chars s)
  | _ => Raise (builtin_exc TypeError)
  end.

(** Truth value of [v], as [if v:] and [v or d] test it. *)
Definition py_truthy (v : json) : bool :=
  match v with
  | JNull => false
  | JBool b => b
  | JNum n => negb (n =? 0)
  | JStr s => negb (String.eqb s "")
  | JArr items => match items with [] => false | _ => true end
  | JObj fields => match fields with [] => false | _ => true end
  end.

(** [v or d] *)
Definition py_or (v d : json) : json := if py_truthy v then v else d.

Definition decimal (n : Z) : string := NilZero.string_of_int (Z.to_int n).

Fixpoint join (sep : string) (parts : list string) : string :=
  match parts with
  | [] => ""
  | [p] => p
  | p :: rest => p ++ sep ++ join sep rest
  end.

Section PyStr.
(** [repr] of a [str] (quoting and escaping) belongs to the interpreter. *)
Variable repr_str : string -> string.

Fixpoint py_repr (v : json) : string :=
  match v with
  | JNull => "None"
  | JBool true => "True"
  | JBool false => "False"
  | JNum n => decimal n
  | JStr s => repr_str s
  | JArr items => "[" ++ join ", " (List.map py_repr items) ++ "]"
  | JObj fields =>
      "{" ++ join ", "
               (List.map (fun kv => repr_str (fst kv) ++ ": " ++ py_repr (snd kv))
                         fields) ++ "}"
  end.

(** [str(v)] *)
Definition py_str (v : json) : string :=
  match v with
  | JStr s => s
  | _ => py_repr v
  end.
End PyStr.

(** ** The entities of [types.py] *)

Module Image.
Record t : Type := mk {
  url : json;
  id : string;
  filename : json;
  alt_text : json
}.
End Image.

Module Ingredient.
Record t : Type := mk {
  name : json;
  quantity : json;
  id : json;
  headline : json;
  sanitized_name : json
}.
End Ingredient.

Module Step.
Record t : Type := mk {
  description : json;
  id : json;
  image_url : json
}.
End Step.

Module User.
Record t : Type := mk {
  id : json;
  name : json;
  profile_message : json;
  image_url : json;
  recipe_count : json;
  follower_count : json;
  followee_count : json;
  cookpad_id : json;
  href : json
}.
End User.

Module Recipe.
Record t : Type := mk {
  id : json;
  title : json;
  story : json;
  serving : json;
  cooking_time : json;
  published_at : json;
  hall_of_fame : json;
  cooksnaps_count : json;
  image_url : json;
  ingredients : list Ingredient.t;
  user : option User.t;
  advice : json;
  bookmarks_count : json;
  view_count : json;
  comments_count : json;
  steps : list Step.t;
  href : json;
  country : json;
  language : json;
  premium : json
}.
End Recipe.

Module Comment.
Record t : Type := mk {
  id : json;
  body : json;
  created_at : json;
  label : json;
  user : option User.t;
  image_url : json;
  cursor : json;
  likes_count : json;
  replies_count : json
}.
End Comment.

Module SearchResponse.
Record t : Type := mk {
  recipes : list Recipe.t;
  total_count : json;
  next_page : json;
  raw : json
}.
End SearchResponse.

Module CommentsResponse.
Record t : Type := mk {
  comments : list Comment.t;
  next_cursor : json
}.
End CommentsResponse.

Module UsersResponse.
Record t : Type := mk {
  users : list User.t;
  total_count : json;
  next_page : json
}.
End UsersResponse.

(** ** The parsers of [types.py]

    Keyword arguments are evaluated in the order they are written, after the
    statements before the constructor call. *)

Definition parse_image (repr_str : string -> string) (data : json)
  : result Image.t :=
  do url <- py_get data "url" (JStr "");
  do id <- py_get data "id" (JStr "");
  do filename <- py_get data "filename" (JStr "");
  do alt_text <- py_get data "alt_text" JNull;
  Ok (Image.mk url (py_str repr_str id) filename alt_text).

Definition parse_ingredient (data : json) : result Ingredient.t :=
  do name <- py_get data "name" (JStr "");
  do quantity <- py_get data "quantity" (JStr "");
  do id <- py_get data "id" (JNum 0);
  do headline <- py_get data "headline" (JBool false);
  do sanitized_name <- py_get data "sanitized_name" (JStr "");
  Ok (Ingredient.mk name quantity id headline sanitized_name).

(** The [for att in ...] loop of [parse_step], over the elements the
    iteration yields: a [break] ends it with the value assigned just before,
    falling off the end leaves [image_url = None]. *)
Fixpoint attachments_loop (atts : list json) : result json :=
  match atts with
  | [] => Ok JNull
  | att :: rest =>
      do has_url <- py_contains "url" att;
      if has_url then py_getitem att "url"
      else
        do img <- py_get att "image" JNull;
        if py_truthy img then py_get img "url" JNull
        else attachments_loop rest
  end.

Definition parse_step (data : json) : result Step.t :=
  do attachments <- py_get data "attachments" (JArr []);
  do atts <- py_iter attachments;
  do image_url <- attachments_loop atts;
  do description <- py_get data "description" (JStr "");
  do id <- py_get data "id" (JNum 0);
  Ok (Step.mk description id image_url).

Definition parse_user (data : json) : result User.t :=
  do img <- py_get data "image" JNull;
  do image_url <- (if py_truthy img then py_get img "url" JNull else Ok JNull);
  do id <- py_get data "id" (JNum 0);
  do name <- py_get data "name" (JStr "");
  do profile_message <- py_get data "profile_message" (JStr "");
  do recipe_count <- py_get data "recipe_count" (JNum 0);
  do follower_count <- py_get data "follower_count" (JNum 0);
  do followee_count <- py_get data "followee_count" (JNum 0);
  do cookpad_id <- py_get data "cookpad_id" (JStr "");
  do href <- py_get data "href" (JStr "");
  Ok (User.mk id name (py_or profile_message (JStr "")) image_url
        recipe_count follower_count followee_count cookpad_id href).

Definition parse_recipe (data : json) : result Recipe.t :=
  do img <- py_get data "image" JNull;
  do image_url <- (if py_truthy img then py_get img "url" JNull else Ok JNull);
  do user_data <- py_get data "user" JNull;
  do user <- (if py_truthy user_data
              then do u <- parse_user user_data; Ok (Some u)
              else Ok None);
  do ingredients_data <- py_get data "ingredients" (JArr []);
  do ingredient_items <- py_iter ingredients_data;
  do ingredients <- traverse parse_ingredient ingredient_items;
  do steps_data <- py_get data "steps" (JArr []);
  do step_items <- py_iter steps_data;
  do steps <- traverse parse_step step_items;
  do id <- py_get data "id" (JNum 0);
  do title <- py_get data "title" (JStr "");
  do story <- py_get data "story" (JStr "");
  do serving <- py_get data "serving" (JStr "");
  do cooking_time <- py_get data "cooking_time" JNull;
  do published_at <- py_get data "published_at" (JStr "");
  do hall_of_fame <- py_get data "hall_of_fame" (JBool false);
  do cooksnaps_count <- py_get data "cooksnaps_count" (JNum 0);
  do advice <- py_get data "advice" (JStr "");
  do bookmarks_count <- py_get data "bookmarks_count" (JNum 0);
  do view_count <- py_get data "view_count" (JNum 0);
  do comments_count <- py_get data "comments_count" (JNum 0);
  do href <- py_get data "href" (JStr "");
  do country <- py_get data "country" (JStr "");
  do language <- py_get data "language" (JStr "");
  do premium <- py_get data "premium" (JBool false);
  Ok (Recipe.mk id title (py_or story (JStr "")) (py_or serving (JStr ""))
        cooking_time published_at hall_of_fame cooksnaps_count image_url
        ingredients user (py_or advice (JStr "")) bookmarks_count view_count
        comments_count steps href country language premium).

Definition parse_comment (data : json) : result Comment.t :=
  do user_data <- py_get data "user" JNull;
  do user <- (if py_truthy user_data
              then do u <- parse_user user_data; Ok (Some u)
              else Ok None);
  do img <- py_get data "image" JNull;
  do image_url <- (if py_truthy img then py_get img "url" JNull else Ok JNull);
  do id <- py_get data "id" (JNum 0);
  do body <- py_get data "body" (JStr "");
  do created_at <- py_get data "created_at" (JStr "");
  do label <- py_get data "label" (JStr "");
  do cursor <- py_get data "cursor" (JStr "");
  do likes_count <- py_get data "likes_count" (JNum 0);
  do replies_count <- py_get data "replies_count" (JNum 0);
  Ok (Comment.mk id body created_at label user image_url cursor
        likes_count replies_count).

(** The comprehension of [parse_search_response]: the [if] filter is
    evaluated on each item before its [parse_recipe]. *)
Fixpoint recipe_cards (items : list json) : result (list Recipe.t) :=
  match items with
  | [] => Ok []
  | item :: rest =>
      do ty <- py_get item "type" JNull;
      if py_eq_str ty "search_results/recipe"
      then
        do r <- parse_recipe item;
        do rs <- recipe_cards rest;
        Ok (r :: rs)
      else recipe_cards rest
  end.

(** The lines shared by [parse_search_response] and [parse_users_response]:
    [extra], [total_count] and [next_page]. *)
Definition parse_extra (data : json) : result (json * json) :=
  do extra <- py_get data "extra" (JObj []);
  do total_count <- py_get extra "total_count" (JNum 0);
  do links <- py_get extra "links" (JObj []);
  do next_link <- py_get links "next" JNull;
  do next_page <- (if py_truthy next_link
                   then py_get next_link "page" JNull
                   else Ok JNull);
  Ok (total_count, next_page).

Definition parse_search_response (data : json) : result SearchResponse.t :=
  do result_data <- py_get data "result" (JArr []);
  do items <- py_iter result_data;
  do recipes <- recipe_cards items;
  do extra <- parse_extra data;
  Ok (SearchResponse.mk recipes (fst extra) (snd extra) data).

(** [comments[-1]] under the guard [if comments]. *)
Definition last_comment (comments : list Comment.t) : option Comment.t :=
  last comments.

Definition parse_comments_response (data : json) : result CommentsResponse.t :=
  do result_data <- py_get data "result" (JArr []);
  do items <- py_iter result_data;
  do comments <- traverse parse_comment items;
  let next_cursor :=
    match last_comment comments with
    | Some c => if py_truthy (Comment.cursor c) then Comment.cursor c else JNull
    | None => JNull
    end in
  Ok (CommentsResponse.mk comments next_cursor).

Definition parse_users_response (data : json) : result UsersResponse.t :=
  do result_data <- py_get data "result" (JArr []);
  do items <- py_iter result_data;
  do users <- traverse parse_user items;
  do extra <- parse_extra data;
  Ok (UsersResponse.mk users (fst extra) (snd extra)).

(** ** [cookpad/constants.py] *)

Definition BASE_URL : string := "https://global-api.cookpad.com/v32".
Definition API_HOST : string := "global-api.cookpad.com".
Definition DEFAULT_TOKEN : string :=
  "54ccbf3be26f7d3d3c1e068d53032e98e3ff992d49979f8e120b323910f0b942".
Definition DEFAULT_USER_AGENT : string :=
  "com.cookpad/2026.7.0; iOS/26.2.1; iPhone17,3; ; ja_JP;".
Definition DEFAULT_COUNTRY : string := "JP".
Definition DEFAULT_LANGUAGE : string := "ja".
Definition DEFAULT_TIMEZONE_ID : string := "Asia/Tokyo".
Definition DEFAULT_TIMEZONE_OFFSET : string := "+09:00".
Definition DEFAULT_PROVIDER_ID : string := "8".

Definition SUPPORTED_SEARCH_TYPES : string :=
  join "," [
    "search_results/recipe";
    "search_results/visual_guides";
    "search_results/spelling_suggestion";
    "search_results/title";
    "search_results/add_recipe_prompt";
    "search_results/premium_recipe_carousel";
    "search_results/premium_recipe_promotion";
    "search_results/library_recipes";
    "search_results/delicious_ways";
    "search_results/popular_promo_recipe";
    "search_results/premium_banner"
  ].

(** ** The client of [cookpad/client.py] *)

Definition ascii_lower (c : ascii) : ascii :=
  let n := N_of_ascii c in
  if ((65 <=? n) && (n <=? 90))%N then ascii_of_N (n + 32) else c.

Definition ascii_upper (c : ascii) : ascii :=
  let n := N_of_ascii c in
  if ((97 <=? n) && (n <=? 122))%N then ascii_of_N (n - 32) else c.

Fixpoint map_string (f : ascii -> ascii) (s : string) : string :=
  match s with
  | EmptyString => EmptyString
  | String c rest => String (f c) (map_string f rest)
  end.

(** [s.lower()] and [s.upper()], on the ASCII letters the client applies them
    to. *)
Definition lower : string -> string := map_string ascii_lower.
Definition upper : string -> string := map_string ascii_upper.

(** [str(b)] for a [bool]. *)
Definition str_bool (b : bool) : string := if b then "True" else "False".

(** A transport handle ([httpx.AsyncClient]) is named by the order of its
    creation. *)
Definition handle : Type := nat.

(** What [self._client.get(url, headers=..., params=...)] sends. *)
Record request : Type := Request {
  req_handle : handle;
  req_url : string;
  req_headers : list (string * string);
  req_params : option (gmap string json)
}.

(** What it answers: [resp.status_code], [resp.text] and the outcome of
    [resp.json()], which raises on a body that is not JSON. *)
Record response : Type := Response {
  status_code : Z;
  text : string;
  json_body : result json
}.

(** The collaborators outside the repository: the source of UUIDs (the
    [n]-th draw of [str(uuid.uuid4())]), the upstream server behind the
    transport (answering the [n]-th request, or failing at transport level)
    and [json.dumps] on a list of strings. *)
Record environment : Type := Environment {
  uuid4 : nat -> string;
  server : nat -> request -> result response;
  json_dumps : list string -> string
}.

(** The attributes [__init__] sets from its arguments; none is assigned
    again. *)
Record config : Type := Config {
  _token : string;
  _country : string;
  _language : string;
  _timezone_id : string;
  _timezone_offset : string;
  _user_agent : string;
  _provider_id : string
}.

Definition default_config : config :=
  Config DEFAULT_TOKEN DEFAULT_COUNTRY DEFAULT_LANGUAGE DEFAULT_TIMEZONE_ID
         DEFAULT_TIMEZONE_OFFSET DEFAULT_USER_AGENT DEFAULT_PROVIDER_ID.

(** The mutable part: [self._client] and, around it, the handles created
    and closed so far, the requests sent, the UUIDs drawn and the calls of
    [resp.json()]. *)
Record state : Type := State {
  _client : option handle;
  next_handle : handle;
  closed : gset handle;
  sent : list request;
  uuids_drawn : nat;
  json_decodes : nat
}.

(** [Cookpad(...)]: [self._client = None]. *)
Definition init_state : state := State None 0%nat ∅ [] 0%nat 0%nat.

(** [httpx.AsyncClient()] *)
Definition new_client (st : state) : handle * state :=
  (next_handle st,
   State (_client st) (S (next_handle st)) (closed st) (sent st)
         (uuids_drawn st) (json_decodes st)).

Definition set_client (c : option handle) (st : state) : state :=
  State c (next_handle st) (closed st) (sent st) (uuids_drawn st)
        (json_decodes st).

(** [await h.aclose()] *)
Definition aclose (h : handle) (st : state) : state :=
  State (_client st) (next_handle st) ({[h]} ∪ closed st) (sent st)
        (uuids_drawn st) (json_decodes st).

Definition __aenter__ (st : state) : state :=
  let '(h, st1) := new_client st in
  set_client (Some h) st1.

Definition __aexit__ (st : state) : state :=
  match _client st with
  | Some h => set_client None (aclose h st)
  | None => st
  end.

Definition _headers (E : environment) (cfg : config) (st : state)
  : list (string * string) * state :=
  ([ ("Host", API_HOST);
     ("Authorization", "Bearer " ++ _token cfg);
     ("X-Cookpad-Country-Selected", _country cfg);
     ("X-Cookpad-Timezone-Id", _timezone_id cfg);
     ("X-Cookpad-Provider-Id", _provider_id cfg);
     ("X-Cookpad-Timezone-Offset", _timezone_offset cfg);
     ("X-Cookpad-Guid", upper (uuid4 E (uuids_drawn st)));
     ("Accept-Encoding", "gzip");
     ("Accept-Language", _language cfg);
     ("Accept", "*/*");
     ("User-Agent", _user_agent cfg) ],
   State (_client st) (next_handle st) (closed st) (sent st)
         (S (uuids_drawn st)) (json_decodes st)).

(** [await h.get(...)]: a closed handle refuses to send (httpx raises
    [RuntimeError]); an open one sends the request and returns what the
    server answers. *)
Definition transport_get (E : environment) (req : request) (st : state)
  : result response * state :=
  if decide (req_handle req ∈ closed st)
  then (Raise (builtin_exc RuntimeError), st)
  else
    (server E (length (sent st)) req,
     State (_client st) (next_handle st) (closed st) (sent st ++ [req])
           (uuids_drawn st) (json_decodes st)).

(** [resp.json()] *)
Definition resp_json (resp : response) (st : state) : result json * state :=
  (json_body resp,
   State (_client st) (next_handle st) (closed st) (sent st)
         (uuids_drawn st) (S (json_decodes st))).

Definition _request (E : environment) (cfg : config) (path : string)
  (params : option (gmap string json)) (st : state) : result json * state :=
  let '(h, st1) :=
    match _client st with
    | None => let '(h, st') := new_client st in (h, set_client (Some h) st')
    | Some h => (h, st)
    end in
  let '(headers, st2) := _headers E cfg st1 in
  let '(r, st3) := transport_get E (Request h (BASE_URL ++ path) headers params) st2 in
  match r with
  | Raise e => (Raise e, st3)
  | Ok resp =>
      if status_code resp =? 401
      then (Raise (Raised AuthenticationError "Authentication failed" None), st3)
      else if status_code resp =? 404
      then (Raise (Raised NotFoundError ("Not found: " ++ path) None), st3)
      else if status_code resp =? 429
      then (Raise (Raised RateLimitError "Rate limit exceeded" None), st3)
      else if 400 <=? status_code resp
      then (Raise (Raised APIError
                     ("API error (" ++ decimal (status_code resp) ++ "): "
                      ++ text resp)
                     (Some (status_code resp))), st3)
      else resp_json resp st3
  end.

(** Decoding after the request: the state is the one the request left. *)
Definition and_then {A B} (m : result A * state) (k : A -> result B)
  : result B * state :=
  (bind (fst m) k, snd m).

Definition search_recipes_params (query : string) (page per_page : Z)
  (order : string) (must_have_cooksnaps : bool) (minimum_cooksnaps : Z)
  (must_have_photo_in_steps : bool)
  (included_ingredients excluded_ingredients : string) : gmap string json :=
  let params : gmap string json :=
    <["supported_types" := JStr SUPPORTED_SEARCH_TYPES]>
    (<["search_source" := JStr "recipe.search.typed_query"]>
    (<["from_delicious_ways" := JStr "false"]>
    (<["must_have_photo_in_steps" := JStr (lower (str_bool must_have_photo_in_steps))]>
    (<["minimum_number_of_cooksnaps" := JNum minimum_cooksnaps]>
    (<["must_have_cooksnaps" := JStr (lower (str_bool must_have_cooksnaps))]>
    (<["order" := JStr order]>
    (<["per_page" := JNum per_page]>
    (<["page" := JNum page]>
    (<["query" := JStr query]> ∅))))))))) in
  let params :=
    if py_truthy (JStr included_ingredients)
    then <["included_ingredients" := JStr included_ingredients]> params
    else params in
  let params :=
    if py_truthy (JStr excluded_ingredients)
    then <["excluded_ingredients" := JStr excluded_ingredients]> params
    else params in
  params.

Definition search_recipes (E : environment) (cfg : config)
  (query : string) (page per_page : Z) (order : string)
  (must_have_cooksnaps : bool) (minimum_cooksnaps : Z)
  (must_have_photo_in_steps : bool)
  (included_ingredients excluded_ingredients : string) (st : state)
  : result SearchResponse.t * state :=
  let params :=
    search_recipes_params query page per_page order must_have_cooksnaps
      minimum_cooksnaps must_have_photo_in_steps included_ingredients
      excluded_ingredients in
  and_then (_request E cfg "/search_results" (Some params) st)
           parse_search_response.

Definition get_recipe (E : environment) (cfg : config) (recipe_id : Z)
  (st : state) : result Recipe.t * state :=
  and_then (_request E cfg ("/recipes/" ++ decimal recipe_id) None st)
           (fun data => do r <- py_getitem data "result"; parse_recipe r).

Definition get_similar_recipes (E : environment) (cfg : config)
  (recipe_id page per_page : Z) (st : state)
  : result (list Recipe.t) * state :=
  and_then
    (_request E cfg ("/recipes/" ++ decimal recipe_id ++ "/similar_recipes")
       (Some (<["per_page" := JNum per_page]> (<["page" := JNum page]> ∅))) st)
    (fun data =>
       do result_data <- py_get data "result" (JArr []);
       do items <- py_iter result_data;
       traverse parse_recipe items).

Definition get_comments (E : environment) (cfg : config)
  (recipe_id limit : Z) (after label : string) (st : state)
  : result CommentsResponse.t * state :=
  and_then
    (_request E cfg ("/recipes/" ++ decimal recipe_id ++ "/comments")
       (Some (<["label" := JStr label]> (<["after" := JStr after]>
             (<["limit" := JNum limit]> ∅)))) st)
    parse_comments_response.

Definition search_users (E : environment) (cfg : config)
  (query : string) (page per_page : Z) (st : state)
  : result UsersResponse.t * state :=
  and_then
    (_request E cfg "/users"
       (Some (<["per_page" := JNum per_page]> (<["page" := JNum page]>
             (<["query" := JStr query]> ∅)))) st)
    parse_users_response.

Definition search_keywords (E : environment) (cfg : config)
  (query : string) (st : state) : result json * state :=
  and_then
    (_request E cfg "/search_keywords" (Some (<["query" := JStr query]> ∅)) st)
    (fun data => py_get data "result" (JObj [])).

Definition get_search_history (E : environment) (cfg : config)
  (local_history : option (list string)) (st : state) : result json * state :=
  let history :=
    json_dumps E (match local_history with
                  | Some (x :: l) => x :: l
                  | _ => []
                  end) in
  _request E cfg "/search_history"
    (Some (<["local_search_history" := JStr history]> ∅)) st.

(** The public operations, as one type, and what each returns. *)
Inductive operation : Type :=
| SearchRecipes (query : string) (page per_page : Z) (order : string)
    (must_have_cooksnaps : bool) (minimum_cooksnaps : Z)
    (must_have_photo_in_steps : bool)
    (included_ingredients excluded_ingredients : string)
| GetRecipe (recipe_id : Z)
| GetSimilarRecipes (recipe_id page per_page : Z)
| GetComments (recipe_id limit : Z) (after label : string)
| SearchUsers (query : string) (page per_page : Z)
| SearchKeywords (query : string)
| GetSearchHistory (local_history : option (list string)).

Inductive value : Type :=
| VSearchResponse (r : SearchResponse.t)
| VRecipe (r : Recipe.t)
| VRecipes (rs : list Recipe.t)
| VCommentsResponse (r : CommentsResponse.t)
| VUsersResponse (r : UsersResponse.t)
| VJson (v : json).

Definition returning {A} (inj : A -> value) (m : result A * state)
  : result value * state :=
  and_then m (fun a => Ok (inj a)).

Definition call (E : environment) (cfg : config) (op : operation) (st : state)
  : result value * state :=
  match op with
  | SearchRecipes q p pp o mc mn mp inc exc =>
      returning VSearchResponse (search_recipes E cfg q p pp o mc mn mp inc exc st)
  | GetRecipe rid => returning VRecipe (get_recipe E cfg rid st)
  | GetSimilarRecipes rid p pp =>
      returning VRecipes (get_similar_recipes E cfg rid p pp st)
  | GetComments rid lim after label =>
      returning VCommentsResponse (get_comments E cfg rid lim after label st)
  | SearchUsers q p pp => returning VUsersResponse (search_users E cfg q p pp st)
  | SearchKeywords q => returning VJson (search_keywords E cfg q st)
  | GetSearchHistory h => returning VJson (get_search_history E cfg h st)
  end.

(** The path each operation requests. *)
Definition op_path (op : operation) : string :=
  match op with
  | SearchRecipes _ _ _ _ _ _ _ _ _ => "/search_results"
  | GetRecipe rid => "/recipes/" ++ decimal rid
  | GetSimilarRecipes rid _ _ => "/recipes/" ++ decimal rid ++ "/similar_recipes"
  | GetComments rid _ _ _ => "/recipes/" ++ decimal rid ++ "/comments"
  | SearchUsers _ _ _ => "/users"
  | SearchKeywords _ => "/search_keywords"
  | GetSearchHistory _ => "/search_history"
  end.

(** The query parameters each operation passes to [_request]. *)
Definition op_params (E : environment) (op : operation)
  : option (gmap string json) :=
  match op with
  | SearchRecipes q p pp o mc mn mp inc exc =>
      Some (search_recipes_params q p pp o mc mn mp inc exc)
  | GetRecipe _ => None
  | GetSimilarRecipes _ p pp =>
      Some (<["per_page" := JNum pp]> (<["page" := JNum p]> ∅))
  | GetComments _ lim after label =>
      Some (<["label" := JStr label]> (<["after" := JStr after]>
           (<["limit" := JNum lim]> ∅)))
  | SearchUsers q p pp =>
      Some (<["per_page" := JNum pp]> (<["page" := JNum p]>
           (<["query" := JStr q]> ∅)))
  | SearchKeywords q => Some (<["query" := JStr q]> ∅)
  | GetSearchHistory h =>
      Some (<["local_search_history" :=
                JStr (json_dumps E (match h with
                                    | Some (x :: l) => x :: l
                                    | _ => []
                                    end))]> ∅)
  end.

(** What each operation does with the body [_request] returns. *)
Definition op_decode (op : operation) (data : json) : result value :=
  match op with
  | SearchRecipes _ _ _ _ _ _ _ _ _ =>
      VSearchResponse <$> parse_search_response data
  | GetRecipe _ =>
      VRecipe <$> (do r <- py_getitem data "result"; parse_recipe r)
  | GetSimilarRecipes _ _ _ =>
      VRecipes <$> (do result_data <- py_get data "result" (JArr []);
                    do items <- py_iter result_data;
                    traverse parse_recipe items)
  | GetComments _ _ _ _ => VCommentsResponse <$> parse_comments_response data
  | SearchUsers _ _ _ => VUsersResponse <$> parse_users_response data
  | SearchKeywords _ => VJson <$> py_get data "result" (JObj [])
  | GetSearchHistory _ => Ok (VJson data)
  end.

(** The handle a request goes out on: the one the client holds, a new one
    when it holds none. *)
Definition request_handle (st : state) : handle :=
  match _client st with
  | Some h => h
  | None => next_handle st
  end.

Definition request_of (E : environment) (cfg : config) (path : string)
  (params : option (gmap string json)) (st : state) : request :=
  Request (request_handle st) (BASE_URL ++ path) (fst (_headers E cfg st)) params.

(** What a caller does with one client instance: enter the [async with]
    scope, leave it, or call an operation (whose exception, if any, the
    caller handles). *)
Inductive action : Type :=
| Enter
| Exit
| Call (op : operation).

Definition step (E : environment) (cfg : config) (st : state) (a : action)
  : state :=
  match a with
  | Enter => __aenter__ st
  | Exit => __aexit__ st
  | Call op => snd (call E cfg op st)
  end.

Definition run (E : environment) (cfg : config) (actions : list action)
  : state :=
  fold_left (step E cfg) actions init_state.

(** Every closed handle was created before, and the handle the client
    holds is open. *)
Definition handles_ok (st : state) : Prop :=
  (forall h, h ∈ closed st -> (h < next_handle st)%nat) /\
  (forall h, _client st = Some h -> (h ∉ closed st) /\ (h < next_handle st)%nat).

(** ** The shapes of the upstream payloads *)

Definition is_obj (v : json) : bool :=
  match v with JObj _ => true | _ => false end.

Definition obj_or_null (v : json) : bool :=
  match v with JNull | JObj _ => true | _ => false end.

(** The key is absent or its value satisfies [P]. *)
Definition field_ok (P : json -> bool) (k : string)
  (fields : list (string * json)) : bool :=
  match dict_lookup k fields with
  | Some v => P v
  | None => true
  end.

Definition list_of (P : json -> bool) (v : json) : bool :=
  match v with
  | JArr items => forallb P items
  | _ => false
  end.

Definition shape_image (v : json) : bool := is_obj v.

Definition shape_ingredient (v : json) : bool := is_obj v.

Definition shape_attachment (v : json) : bool :=
  match v with
  | JObj fields => dict_has "url" fields || field_ok obj_or_null "image" fields
  | _ => false
  end.

Definition shape_step (v : json) : bool :=
  match v with
  | JObj fields => field_ok (list_of shape_attachment) "attachments" fields
  | _ => false
  end.

Definition shape_user (v : json) : bool :=
  match v with
  | JObj fields => field_ok obj_or_null "image" fields
  | _ => false
  end.

Definition user_or_null (v : json) : bool :=
  match v with
  | JNull => true
  | _ => shape_user v
  end.

Definition shape_recipe (v : json) : bool :=
  match v with
  | JObj fields =>
      field_ok obj_or_null "image" fields
      && field_ok user_or_null "user" fields
      && field_ok (list_of shape_ingredient) "ingredients" fields
      && field_ok (list_of shape_step) "steps" fields
  | _ => false
  end.

Definition shape_comment (v : json) : bool :=
  match v with
  | JObj fields =>
      field_ok user_or_null "user" fields
      && field_ok obj_or_null "image" fields
  | _ => false
  end.

Definition shape_links (v : json) : bool :=
  match v with
  | JObj fields => field_ok obj_or_null "next" fields
  | _ => false
  end.

Definition shape_extra (v : json) : bool :=
  match v with
  | JObj fields => field_ok shape_links "links" fields
  | _ => false
  end.

(** A tagged item of a search listing: an object, and a well-shaped recipe
    when its tag is the recipe-card one. *)
Definition is_recipe_card (item : json) : bool :=
  match item with
  | JObj fields =>
      match dict_lookup "type" fields with
      | Some (JStr t) => String.eqb t "search_results/recipe"
      | _ => false
      end
  | _ => false
  end.

Definition shape_search_item (item : json) : bool :=
  is_obj item && (if is_recipe_card item then shape_recipe item else true).

Definition shape_search_response (v : json) : bool :=
  match v with
  | JObj fields =>
      field_ok (list_of shape_search_item) "result" fields
      && field_ok shape_extra "extra" fields
  | _ => false
  end.

Definition shape_comments_response (v : json) : bool :=
  match v with
  | JObj fields => field_ok (list_of shape_comment) "result" fields
  | _ => false
  end.

Definition shape_users_response (v : json) : bool :=
  match v with
  | JObj fields =>
      field_ok (list_of shape_user) "result" fields
      && field_ok shape_extra "extra" fields
  | _ => false
  end.

Inductive decoder : Type :=
| DecodeImage
| DecodeIngredient
| DecodeStep
| DecodeUser
| DecodeRecipe
| DecodeComment
| DecodeSearchResponse
| DecodeCommentsResponse
| DecodeUsersResponse.

Definition well_shaped (d : decoder) : json -> bool :=
  match d with
  | DecodeImage => shape_image
  | DecodeIngredient => shape_ingredient
  | DecodeStep => shape_step
  | DecodeUser => shape_user
  | DecodeRecipe => shape_recipe
  | DecodeComment => shape_comment
  | DecodeSearchResponse => shape_search_response
  | DecodeCommentsResponse => shape_comments_response
  | DecodeUsersResponse => shape_users_response
  end.

Definition returns_entity {A} (r : result A) : Prop := exists a, r = Ok a.

Definition raises {A} (r : result A) : Prop := exists e, r = Raise e.

Definition decodes (repr_str : string -> string) (d : decoder) (data : json)
  : Prop :=
  match d with
  | DecodeImage => returns_entity (parse_image repr_str data)
  | DecodeIngredient => returns_entity (parse_ingredient data)
  | DecodeStep => returns_entity (parse_step data)
  | DecodeUser => returns_entity (parse_user data)
  | DecodeRecipe => returns_entity (parse_recipe data)
  | DecodeComment => returns_entity (parse_comment data)
  | DecodeSearchResponse => returns_entity (parse_search_response data)
  | DecodeCommentsResponse => returns_entity (parse_comments_response data)
  | DecodeUsersResponse => returns_entity (parse_users_response data)
  end.

(** The items under the [result] key of an envelope: the list it holds, no
    item when the key is absent. *)
Definition result_items (fields : list (string * json)) : option (list json) :=
  match dict_lookup "result" fields with
  | Some (JArr items) => Some items
  | Some _ => None
  | None => Some []
  end.

(** ** Step image resolution, in the words of the specification

    An attachment qualifies when it carries a direct [url] key or when its
    nested [image] object has a [url]; the first qualifying attachment gives
    the result, none when there is no such attachment. *)

Definition direct_url (att : json) : option json :=
  match att with
  | JObj fields => dict_lookup "url" fields
  | _ => None
  end.

Definition nested_image_url (att : json) : option json :=
  match att with
  | JObj fields =>
      match dict_lookup "image" fields with
      | Some (JObj image) => dict_lookup "url" image
      | _ => None
      end
  | _ => None
  end.

Definition qualifying_url (att : json) : option json :=
  match direct_url att with
  | Some u => Some u
  | None => nested_image_url att
  end.

Fixpoint spec_step_image_url (atts : list json) : json :=
  match atts with
  | [] => JNull
  | att :: rest =>
      match qualifying_url att with
      | Some u => u
      | None => spec_step_image_url rest
      end
  end.

(** What the loop of [parse_step] tests instead: an attachment object is
    passed over when it has no [url] key and its [image] value is absent or
    false as a condition (none, an empty object). *)
Definition passed_over (att : json) : bool :=
  match att with
  | JObj fields =>
      negb (dict_has "url" fields)
      && negb (py_truthy (default JNull (dict_lookup "image" fields)))
  | _ => false
  end.

(** The attachment that ends the loop with a value: one with a [url] key
    gives that value, and otherwise one with a non-empty [image] object gives
    that object's [url], none when the object has no such key. *)
Definition deciding_url (att : json) : option json :=
  match att with
  | JObj fields =>
      match dict_lookup "url" fields with
      | Some u => Some u
      | None =>
          match dict_lookup "image" fields with
          | Some (JObj (binding :: image)) =>
              Some (default JNull (dict_lookup "url" (binding :: image)))
          | _ => None
          end
      end
  | _ => None
  end.

(** [Step(...)] as [parse_step] builds it around a resolved [image_url]. *)
Definition step_with (fields : list (string * json)) (image_url : json)
  : Step.t :=
  Step.mk (default (JStr "") (dict_lookup "description" fields))
          (default (JNum 0) (dict_lookup "id" fields))
          image_url.

(** ** Pagination, in the words of the specification

    The value at [extra.links.next.page]: it is present when [extra],
    [links] and [next] are there as objects and [next] has a [page]; in
    every other case a link of the path is absent. *)
Definition page_at_path (fields : list (string * json)) : option json :=
  match dict_lookup "extra" fields with
  | Some (JObj extra) =>
      match dict_lookup "links" extra with
      | Some (JObj links) =>
          match dict_lookup "next" links with
          | Some (JObj next) => dict_lookup "page" next
          | _ => None
          end
      | _ => None
      end
  | _ => None
  end.

(** What the code needs of the envelope when a link is absent: [extra] and
    [links], when present, are objects, and [next], when present, is an
    object or a value false as a condition (none, in the payloads of the
    test suite). *)
Definition object_or_falsy (v : json) : bool :=
  is_obj v || negb (py_truthy v).

Definition links_ok (v : json) : bool :=
  match v with
  | JObj links => field_ok object_or_falsy "next" links
  | _ => false
  end.

Definition extra_ok (v : json) : bool :=
  match v with
  | JObj extra => field_ok links_ok "links" extra
  | _ => false
  end.

Definition envelope_ok (fields : list (string * json)) : bool :=
  field_ok extra_ok "extra" fields.

Definition total_count_of (fields : list (string * json)) : json :=
  match dict_lookup "extra" fields with
  | Some (JObj extra) => default (JNum 0) (dict_lookup "total_count" extra)
  | _ => JNum 0
  end.

(** Both listings decode with [next_page] as their next page: the search
    response and the users response built from the envelope [fields], once
    the items of its [result] are decoded. *)
Definition next_page_is (fields : list (string * json)) (items : list json)
  (next_page : json) : Prop :=
  (forall recipes,
      recipe_cards items = Ok recipes ->
      parse_search_response (JObj fields)
      = Ok (SearchResponse.mk recipes (total_count_of fields) next_page
              (JObj fields)))
  /\ (forall users,
      traverse parse_user items = Ok users ->
      parse_users_response (JObj fields)
      = Ok (UsersResponse.mk users (total_count_of fields) next_page)).

(** ** Sample payloads and servers *)

(** The summary recipe of the test suite, with a step carrying an image. *)
Definition sample_recipe : json :=
  JObj [ ("type", JStr "search_results/recipe");
         ("id", JNum 99999);
         ("title", JStr "Test recipe");
         ("cooking_time", JNull);
         ("hall_of_fame", JBool true);
         ("image", JObj [("url", JStr "https://example.com/recipe.jpg")]);
         ("ingredients", JArr [JObj [("name", JStr "egg"); ("id", JNum 1)]]);
         ("steps",
          JArr [JObj [("id", JNum 1);
                      ("attachments",
                       JArr [JObj [("image",
                                    JObj [("url", JStr "https://example.com/step.jpg")])]])]]);
         ("user", JObj [("id", JNum 1); ("name", JStr "Chef")]) ].

(** The four-item listing of the test suite. *)
Definition sample_search_listing : list (string * json) :=
  [ ("result",
     JArr [ JObj [("type", JStr "search_results/premium_banner"); ("result", JArr [])];
            JObj [("type", JStr "search_results/title"); ("title", JStr "recent")];
            JObj [("type", JStr "search_results/recipe"); ("id", JNum 1);
                  ("title", JStr "Recipe 1")];
            JObj [("type", JStr "search_results/recipe"); ("id", JNum 2);
                  ("title", JStr "Recipe 2")] ]);
    ("extra",
     JObj [ ("total_count", JNum 100);
            ("links", JObj [("prev", JNull);
                            ("next", JObj [("href", JStr "..."); ("page", JNum 2)])]) ]) ].

Definition summary_recipe (id : Z) (title : string) : Recipe.t :=
  Recipe.mk (JNum id) (JStr title) (JStr "") (JStr "") JNull (JStr "")
    (JBool false) (JNum 0) JNull [] None (JStr "") (JNum 0) (JNum 0) (JNum 0)
    [] (JStr "") (JStr "") (JStr "") (JBool false).

Definition plain_comment (id : Z) (body cursor : string) : Comment.t :=
  Comment.mk (JNum id) (JStr body) (JStr "") (JStr "") None JNull
    (JStr cursor) (JNum 0) (JNum 0).

Definition plain_user (id : Z) (name : string) : User.t :=
  User.mk (JNum id) (JStr name) (JStr "") JNull (JNum 0) (JNum 0) (JNum 0)
    (JStr "") (JStr "").

(** A server that knows no recipe: every request is answered 404, with a
    body that is not JSON. *)
Definition not_found_server : environment :=
  Environment (fun _ => "6f1c2a9e-0000-4000-8000-000000000000")
    (fun _ _ => Ok (Response 404 "<html>Not Found</html>"
                      (Raise (builtin_exc JSONDecodeError))))
    (fun _ => "[]").

(** A server that answers every request 200 with the empty object. *)
Definition empty_object_server : environment :=
  Environment (fun _ => "6f1c2a9e-0000-4000-8000-000000000000")
    (fun _ _ => Ok (Response 200 "{}" (Ok (JObj []))))
    (fun _ => "[]").

(** A server that cannot be reached: the transport raises. *)
Definition unreachable_server : environment :=
  Environment (fun _ => "6f1c2a9e-0000-4000-8000-000000000000")
    (fun _ _ => Raise (Raised TransportFailure "connection refused" None))
    (fun _ => "[]").

(** ** Vocabulary for the further properties *)

(** What a decoder does with an input, the entity forgotten. *)
Definition decode_outcome (repr_str : string -> string) (d : decoder)
  (data : json) : result unit :=
  match d with
  | DecodeImage => (fun _ => tt) <$> parse_image repr_str data
  | DecodeIngredient => (fun _ => tt) <$> parse_ingredient data
  | DecodeStep => (fun _ => tt) <$> parse_step data
  | DecodeUser => (fun _ => tt) <$> parse_user data
  | DecodeRecipe => (fun _ => tt) <$> parse_recipe data
  | DecodeComment => (fun _ => tt) <$> parse_comment data
  | DecodeSearchResponse => (fun _ => tt) <$> parse_search_response data
  | DecodeCommentsResponse => (fun _ => tt) <$> parse_comments_response data
  | DecodeUsersResponse => (fun _ => tt) <$> parse_users_response data
  end.

(** The two exceptions the interpreter raises on a value of the wrong
    kind. *)
Definition shape_error (e : exn) : Prop :=
  e = builtin_exc TypeError \/ e = builtin_exc AttributeError.

Definition only_shape_errors {A} (r : result A) : Prop :=
  forall e, r = Raise e -> shape_error e.

(** A text field after [or ""]: a value that holds as a condition, or the
    empty string. *)
Definition coalesced (v : json) : Prop :=
  py_truthy v = true \/ v = JStr "".

(** The value of a header of a request. *)
Fixpoint header (k : string) (headers : list (string * string))
  : option string :=
  match headers with
  | [] => None
  | (k', v) :: rest => if String.eqb k k' then Some v else header k rest
  end.

(** The headers of the request that draws the [i]-th UUID. *)
Definition headers_of (E : environment) (cfg : config) (i : nat)
  : list (string * string) :=
  fst (_headers E cfg (State None 0%nat ∅ [] i 0%nat)).

Definition is_call (a : action) : bool :=
  match a with Call _ => true | _ => false end.

Definition is_exit (a : action) : bool :=
  match a with Exit => true | _ => false end.

(** Reading a decimal numeral back. *)
Definition read_decimal (s : string) : option Z :=
  option_map Z.of_int (NilZero.int_of_string s).

(** The keys [search_recipes] always sends. *)
Definition fixed_search_keys : gset string :=
  list_to_set [ "query"; "page"; "per_page"; "order"; "must_have_cooksnaps";
                "minimum_number_of_cooksnaps"; "must_have_photo_in_steps";
                "from_delicious_ways"; "search_source"; "supported_types" ].

(** * Properties *)

(** ** Helper lemmas on the exception monad *)

Lemma bind_Ok_inv {A B} (m : result A) (k : A -> result B) (b : B) :
  bind m k = Ok b -> exists a, m = Ok a /\ k a = Ok b.
Proof. destruct m as [a|e]; simpl; intros H; [eauto | discriminate]. Qed.

Lemma traverse_returns {A B} (f : A -> result B) (xs : list A) :
  Forall (fun x => returns_entity (f x)) xs -> returns_entity (traverse f xs).
Proof.
  induction 1 as [|x rest [y Hy] _ [ys Hys]]; simpl.
  - exists []; reflexivity.
  - rewrite Hy, Hys. exists (y :: ys); reflexivity.
Qed.

Lemma traverse_app {A B} (f : A -> result B) (xs ys : list A) us vs :
  traverse f xs = Ok us -> traverse f ys = Ok vs ->
  traverse f (xs ++ ys)%list = Ok (us ++ vs)%list.
Proof.
  revert us. induction xs as [|x xs IH]; simpl; intros us Hx Hy.
  - inversion Hx; subst. exact Hy.
  - destruct (f x) as [y|e]; simpl in *; [|discriminate].
    destruct (traverse f xs) as [ys'|e]; simpl in *; [|discriminate].
    inversion Hx; subst. rewrite (IH ys' eq_refl Hy). reflexivity.
Qed.

Lemma traverse_app_inv {A B} (f : A -> result B) (xs ys : list A) ws :
  traverse f (xs ++ ys)%list = Ok ws ->
  exists us vs, traverse f xs = Ok us /\ traverse f ys = Ok vs /\ ws = (us ++ vs)%list.
Proof.
  revert ws. induction xs as [|x xs IH]; simpl; intros ws H.
  - exists [], ws. auto.
  - destruct (f x) as [y|e]; simpl in *; [|discriminate].
    destruct (traverse f (xs ++ ys)%list) as [zs|e] eqn:Hz; simpl in *; [|discriminate].
    destruct (IH zs eq_refl) as (us & vs & Hu & Hv & ->).
    rewrite Hu; simpl. inversion H; subst. exists (y :: us), vs. auto.
Qed.

Lemma forallb_Forall_returns {A B} (P : A -> bool) (f : A -> result B) xs :
  (forall x, P x = true -> returns_entity (f x)) ->
  forallb P xs = true -> Forall (fun x => returns_entity (f x)) xs.
Proof.
  intros HP. induction xs as [|x xs IH]; simpl; intros H; constructor.
  - apply HP. apply andb_true_iff in H. tauto.
  - apply IH. apply andb_true_iff in H. tauto.
Qed.

(** ** C1: explicit null in a plain string field *)

(** C1.  The claim says that a plain string field whose value is an explicit
    null decodes like a missing one, to the empty string.  In the code only
    [profile_message], [story], [serving] and [advice] go through [or ""];
    the other plain string fields keep the null.  Evaluated here:
    [Ingredient.name], [User.name] and [Comment.body] are none on an explicit
    null and empty on a missing key, while [User.profile_message] is empty in
    both cases and the optional [cooking_time] is none in both. *)
Theorem C1_explicit_null_is_kept :
  (Ingredient.name <$> parse_ingredient (JObj [("name", JNull)]) = Ok JNull
   /\ Ingredient.name <$> parse_ingredient (JObj []) = Ok (JStr ""))
  /\ (User.name <$> parse_user (JObj [("name", JNull)]) = Ok JNull
      /\ User.name <$> parse_user (JObj []) = Ok (JStr ""))
  /\ (Comment.body <$> parse_comment (JObj [("body", JNull)]) = Ok JNull
      /\ Comment.body <$> parse_comment (JObj []) = Ok (JStr ""))
  /\ (User.profile_message <$> parse_user (JObj [("profile_message", JNull)])
        = Ok (JStr "")
      /\ User.profile_message <$> parse_user (JObj []) = Ok (JStr ""))
  /\ (Recipe.cooking_time <$> parse_recipe (JObj [("cooking_time", JNull)])
        = Ok JNull
      /\ Recipe.cooking_time <$> parse_recipe (JObj []) = Ok JNull).
Proof. repeat split; reflexivity. Qed.

(** ** C2: where the decoders return *)

Lemma nested_url_returns (img : json) :
  obj_or_null img = true ->
  returns_entity (if py_truthy img then py_get img "url" JNull else Ok JNull).
Proof.
  destruct img as [| | | | |image]; try discriminate; intros _.
  - exists JNull; reflexivity.
  - destruct (py_truthy (JObj image)); eexists; reflexivity.
Qed.

Lemma field_ok_default (P : json -> bool) k fields d :
  field_ok P k fields = true -> P d = true ->
  P (default d (dict_lookup k fields)) = true.
Proof.
  unfold field_ok. destruct (dict_lookup k fields); simpl; auto.
Qed.

Lemma parse_image_returns repr_str data :
  shape_image data = true -> returns_entity (parse_image repr_str data).
Proof.
  destruct data; try discriminate; intros _. eexists; reflexivity.
Qed.

Lemma parse_ingredient_returns data :
  shape_ingredient data = true -> returns_entity (parse_ingredient data).
Proof.
  destruct data; try discriminate; intros _. eexists; reflexivity.
Qed.

Lemma attachments_loop_returns atts :
  forallb shape_attachment atts = true ->
  returns_entity (attachments_loop atts).
Proof.
  induction atts as [|att rest IH]; simpl; intros H.
  - exists JNull; reflexivity.
  - apply andb_true_iff in H as [Hatt Hrest].
    destruct att as [| | | | |fields]; try discriminate. simpl in *.
    unfold dict_has in *.
    destruct (dict_lookup "url" fields) as [u|]; simpl in *.
    + exists u; reflexivity.
    + pose proof (field_ok_default _ _ _ JNull Hatt eq_refl) as Himg.
      destruct (default JNull (dict_lookup "image" fields))
        as [| | | | |image]; try discriminate; simpl.
      * auto.
      * destruct image; simpl; [auto | eexists; reflexivity].
Qed.

Lemma parse_step_returns data :
  shape_step data = true -> returns_entity (parse_step data).
Proof.
  destruct data as [| | | | |fields]; try discriminate. simpl. intros H.
  unfold parse_step. simpl.
  pose proof (field_ok_default _ _ _ (JArr []) H eq_refl) as Hl.
  destruct (default (JArr []) (dict_lookup "attachments" fields))
    as [| | | |atts|]; try discriminate. simpl in *.
  destruct (attachments_loop_returns atts Hl) as [u ->]. simpl.
  eexists; reflexivity.
Qed.

Lemma parse_user_returns data :
  shape_user data = true -> returns_entity (parse_user data).
Proof.
  destruct data as [| | | | |fields]; try discriminate. simpl. intros H.
  unfold parse_user. simpl.
  pose proof (field_ok_default _ _ _ JNull H eq_refl) as Himg.
  destruct (nested_url_returns _ Himg) as [u ->]. simpl.
  eexists; reflexivity.
Qed.

Lemma user_field_returns user_data :
  user_or_null user_data = true ->
  returns_entity (if py_truthy user_data
                  then do u <- parse_user user_data; Ok (Some u)
                  else Ok None).
Proof.
  intros H. destruct (py_truthy user_data) eqn:Ht.
  - assert (Hs : shape_user user_data = true)
      by (destruct user_data; try discriminate; exact H).
    destruct (parse_user_returns _ Hs) as [u ->]. eexists; reflexivity.
  - eexists; reflexivity.
Qed.

Lemma traverse_list_of {B} (P : json -> bool) (f : json -> result B) v :
  (forall x, P x = true -> returns_entity (f x)) ->
  list_of P v = true ->
  returns_entity (do items <- py_iter v; traverse f items).
Proof.
  intros HP. destruct v as [| | | |items|]; try discriminate. simpl.
  intros H. apply traverse_returns. eapply forallb_Forall_returns; eauto.
Qed.

Lemma parse_recipe_returns data :
  shape_recipe data = true -> returns_entity (parse_recipe data).
Proof.
  destruct data as [| | | | |fields]; try discriminate. simpl. intros H.
  repeat (apply andb_true_iff in H as [H ?]).
  unfold parse_recipe. simpl.
  destruct (nested_url_returns (default JNull (dict_lookup "image" fields)))
    as [u ->]; [apply field_ok_default; auto|]. simpl.
  destruct (user_field_returns (default JNull (dict_lookup "user" fields)))
    as [usr ->]; [apply field_ok_default; auto|]. simpl.
  destruct (traverse_list_of shape_ingredient parse_ingredient
              (default (JArr []) (dict_lookup "ingredients" fields))
              parse_ingredient_returns) as [ings Hings];
    [apply field_ok_default; auto|].
  apply bind_Ok_inv in Hings as (items & Hi & Ht).
  rewrite Hi; simpl. rewrite Ht; simpl. clear Hi Ht.
  destruct (traverse_list_of shape_step parse_step
              (default (JArr []) (dict_lookup "steps" fields))
              parse_step_returns) as [sts Hsts];
    [apply field_ok_default; auto|].
  apply bind_Ok_inv in Hsts as (items' & Hi & Ht).
  rewrite Hi; simpl. rewrite Ht; simpl.
  eexists; reflexivity.
Qed.

Lemma parse_comment_returns data :
  shape_comment data = true -> returns_entity (parse_comment data).
Proof.
  destruct data as [| | | | |fields]; try discriminate. simpl. intros H.
  apply andb_true_iff in H as [Hu Hi].
  unfold parse_comment. simpl.
  destruct (user_field_returns (default JNull (dict_lookup "user" fields)))
    as [usr ->]; [apply field_ok_default; auto|]. simpl.
  destruct (nested_url_returns (default JNull (dict_lookup "image" fields)))
    as [u ->]; [apply field_ok_default; auto|]. simpl.
  eexists; reflexivity.
Qed.

Lemma parse_extra_returns fields :
  field_ok shape_extra "extra" fields = true ->
  returns_entity (parse_extra (JObj fields)).
Proof.
  intros H. unfold parse_extra. simpl.
  pose proof (field_ok_default _ _ _ (JObj []) H eq_refl) as He.
  destruct (default (JObj []) (dict_lookup "extra" fields))
    as [| | | | |extra]; try discriminate. simpl in *.
  pose proof (field_ok_default _ _ _ (JObj []) He eq_refl) as Hl.
  destruct (default (JObj []) (dict_lookup "links" extra))
    as [| | | | |links]; try discriminate. simpl in *.
  pose proof (field_ok_default _ _ _ JNull Hl eq_refl) as Hn.
  destruct (default JNull (dict_lookup "next" links))
    as [| | | | |next]; try discriminate; simpl.
  - eexists; reflexivity.
  - destruct next; eexists; reflexivity.
Qed.

(** On a list of objects the comprehension of [parse_search_response]
    decodes the recipe cards, in order, and nothing else. *)
Lemma recipe_cards_filter items :
  forallb is_obj items = true ->
  recipe_cards items = traverse parse_recipe (List.filter is_recipe_card items).
Proof.
  induction items as [|item rest IH]; simpl; intros H; [reflexivity|].
  apply andb_true_iff in H as [Hobj Hrest].
  destruct item as [| | | | |fields]; try discriminate.
  simpl. rewrite (IH Hrest).
  destruct (dict_lookup "type" fields) as [[| | |t| |]|]; simpl; try reflexivity.
  destruct (String.eqb t "search_results/recipe"); reflexivity.
Qed.

Lemma search_items_objects items :
  forallb shape_search_item items = true -> forallb is_obj items = true.
Proof.
  induction items as [|x xs IH]; simpl; [reflexivity|].
  intros H. apply andb_true_iff in H as [Hx Hxs].
  apply andb_true_iff in Hx as [-> _]. simpl. auto.
Qed.

Lemma recipe_cards_returns items :
  forallb shape_search_item items = true -> returns_entity (recipe_cards items).
Proof.
  intros H. rewrite recipe_cards_filter by (apply search_items_objects; exact H).
  apply traverse_returns.
  induction items as [|x xs IH]; simpl in *; [constructor|].
  apply andb_true_iff in H as [Hx Hxs].
  apply andb_true_iff in Hx as [_ Hx].
  destruct (is_recipe_card x); [|auto].
  constructor; [apply parse_recipe_returns; exact Hx | auto].
Qed.

Lemma parse_search_response_returns data :
  shape_search_response data = true ->
  returns_entity (parse_search_response data).
Proof.
  destruct data as [| | | | |fields]; try discriminate. simpl. intros H.
  apply andb_true_iff in H as [Hr He].
  unfold parse_search_response. simpl.
  pose proof (field_ok_default _ _ _ (JArr []) Hr eq_refl) as Hl.
  destruct (default (JArr []) (dict_lookup "result" fields))
    as [| | | |items|]; try discriminate. simpl in *.
  destruct (recipe_cards_returns items Hl) as [rs ->]. simpl.
  destruct (parse_extra_returns fields He) as [ex ->]. simpl.
  eexists; reflexivity.
Qed.

Lemma parse_comments_response_returns data :
  shape_comments_response data = true ->
  returns_entity (parse_comments_response data).
Proof.
  destruct data as [| | | | |fields]; try discriminate. simpl. intros H.
  unfold parse_comments_response. simpl.
  destruct (traverse_list_of shape_comment parse_comment
              (default (JArr []) (dict_lookup "result" fields))
              parse_comment_returns) as [cs Hcs];
    [apply field_ok_default; auto|].
  apply bind_Ok_inv in Hcs as (items & Hi & Ht).
  rewrite Hi; simpl. rewrite Ht; simpl.
  eexists; reflexivity.
Qed.

Lemma parse_users_response_returns data :
  shape_users_response data = true ->
  returns_entity (parse_users_response data).
Proof.
  destruct data as [| | | | |fields]; try discriminate. simpl. intros H.
  apply andb_true_iff in H as [Hr He].
  unfold parse_users_response. simpl.
  destruct (traverse_list_of shape_user parse_user
              (default (JArr []) (dict_lookup "result" fields))
              parse_user_returns) as [us Hus];
    [apply field_ok_default; auto|].
  apply bind_Ok_inv in Hus as (items & Hi & Ht).
  rewrite Hi; simpl. rewrite Ht; simpl.
  destruct (parse_extra_returns fields He) as [ex ->]. simpl.
  eexists; reflexivity.
Qed.

(** C2, as amended.  Every decode function returns an entity on a JSON
    object of the expected shape: [attachments], [ingredients], [steps] and
    [result], when present, hold lists of objects; [image], [user] and
    [next], when present, hold an object or null; [extra] and [links], when
    present, hold objects; and the nested users, steps, attachments, recipe
    cards and comments have that shape in turn. *)
Theorem C2_decoders_return_on_well_shaped
  (repr_str : string -> string) (d : decoder) (data : json) :
  well_shaped d data = true -> decodes repr_str d data.
Proof.
  destruct d; simpl.
  - apply parse_image_returns.
  - apply parse_ingredient_returns.
  - apply parse_step_returns.
  - apply parse_user_returns.
  - apply parse_recipe_returns.
  - apply parse_comment_returns.
  - apply parse_search_response_returns.
  - apply parse_comments_response_returns.
  - apply parse_users_response_returns.
Qed.

Lemma C2_witness :
  well_shaped DecodeRecipe sample_recipe = true
  /\ decodes (fun s => s) DecodeRecipe sample_recipe.
Proof.
  split; [reflexivity|].
  apply (C2_decoders_return_on_well_shaped (fun s => s) DecodeRecipe sample_recipe).
  reflexivity.
Defined.

(** C2, as stated, fails: with [attachments] explicitly null the loop of
    [parse_step] iterates over [None], and a recipe whose [steps] or
    [ingredients] is null, or a listing whose [result] is null, fails the
    same way. *)
Lemma C2_counterexample :
  parse_step (JObj [("attachments", JNull)]) = Raise (builtin_exc TypeError)
  /\ ~ decodes (fun s => s) DecodeStep (JObj [("attachments", JNull)])
  /\ ~ decodes (fun s => s) DecodeRecipe (JObj [("steps", JNull)])
  /\ ~ decodes (fun s => s) DecodeSearchResponse (JObj [("result", JNull)]).
Proof.
  split; [reflexivity|].
  repeat split; intros [a Ha]; discriminate Ha.
Qed.

(** ** C3: step image resolution *)

Lemma attachments_loop_passed_over pre rest :
  forallb passed_over pre = true ->
  attachments_loop (pre ++ rest)%list = attachments_loop rest.
Proof.
  induction pre as [|att pre IH]; simpl; intros H; [reflexivity|].
  apply andb_true_iff in H as [Hatt Hpre].
  destruct att as [| | | | |fields]; try discriminate. simpl in *.
  apply andb_true_iff in Hatt as [Hurl Himg].
  apply negb_true_iff in Hurl, Himg. rewrite Hurl. simpl. rewrite Himg.
  auto.
Qed.

Lemma attachments_loop_deciding att rest u :
  deciding_url att = Some u -> attachments_loop (att :: rest) = Ok u.
Proof.
  destruct att as [| | | | |fields]; try discriminate. simpl.
  unfold dict_has.
  destruct (dict_lookup "url" fields) as [v|]; simpl.
  - congruence.
  - destruct (dict_lookup "image" fields) as [[| | | | |[|b image]]|];
      try discriminate. simpl. congruence.
Qed.

Lemma attachments_loop_none atts :
  forallb passed_over atts = true -> attachments_loop atts = Ok JNull.
Proof.
  intros H. rewrite <- (app_nil_r atts).
  rewrite attachments_loop_passed_over by exact H. reflexivity.
Qed.

(** C3, as amended.  [decode_step] resolves [image_url] by one scan of the
    attachments in order.  An attachment object with no [url] key and whose
    [image] is absent or false as a condition (none, an empty object) is
    passed over.  The first
    attachment after those decides, when it has a [url] key (its value is the
    result) or else a non-empty [image] object (that object's [url] is the
    result, none if it has no [url] key).  When every attachment is passed
    over, an empty list included, the result is none. *)
Theorem C3_first_deciding_attachment
  (fields : list (string * json)) (atts : list json) :
  dict_lookup "attachments" fields = Some (JArr atts) ->
  (forall pre att post u,
      atts = (pre ++ att :: post)%list ->
      forallb passed_over pre = true ->
      deciding_url att = Some u ->
      parse_step (JObj fields) = Ok (step_with fields u))
  /\ (forallb passed_over atts = true ->
      parse_step (JObj fields) = Ok (step_with fields JNull)).
Proof.
  intros Hatts. unfold parse_step. simpl. rewrite Hatts. simpl. split.
  - intros pre att post u -> Hpre Hdec.
    rewrite attachments_loop_passed_over by exact Hpre.
    rewrite (attachments_loop_deciding _ _ _ Hdec). reflexivity.
  - intros Hall. rewrite attachments_loop_none by exact Hall. reflexivity.
Qed.

(** The two-attachment case: the first attachment has neither a [url] nor an
    [image], the second has a [url]. *)
Lemma C3_witness :
  let first := JObj [("id", JNum 7)] in
  let second := JObj [("url", JStr "https://example.com/b.jpg")] in
  let fields := [("id", JNum 2); ("attachments", JArr [first; second])] in
  parse_step (JObj fields)
  = Ok (Step.mk (JStr "") (JNum 2) (JStr "https://example.com/b.jpg"))
  /\ parse_step (JObj [("attachments", JArr [])])
     = Ok (Step.mk (JStr "") (JNum 0) JNull).
Proof.
  split.
  - apply (proj1 (C3_first_deciding_attachment
                    [("id", JNum 2);
                     ("attachments",
                      JArr [JObj [("id", JNum 7)];
                            JObj [("url", JStr "https://example.com/b.jpg")]])]
                    [JObj [("id", JNum 7)];
                     JObj [("url", JStr "https://example.com/b.jpg")]]
                    eq_refl)
             [JObj [("id", JNum 7)]]
             (JObj [("url", JStr "https://example.com/b.jpg")])
             []); reflexivity.
  - apply (proj2 (C3_first_deciding_attachment
                    [("attachments", JArr [])] [] eq_refl)).
    reflexivity.
Defined.

(** C3, as stated, fails: the first attachment below lacks both [url] and
    [image.url] (its image has only an id), the second has a [url], and yet
    the result is none, not the second attachment's URL: an attachment with a
    non-empty [image] ends the scan whether or not that image has a [url]. *)
Lemma C3_counterexample :
  let first := JObj [("image", JObj [("id", JNum 1)])] in
  let second := JObj [("url", JStr "https://example.com/b.jpg")] in
  qualifying_url first = None
  /\ qualifying_url second = Some (JStr "https://example.com/b.jpg")
  /\ spec_step_image_url [first; second] = JStr "https://example.com/b.jpg"
  /\ Step.image_url <$> parse_step (JObj [("attachments", JArr [first; second])])
     = Ok JNull
  /\ Step.image_url <$> parse_step (JObj [("attachments", JArr [first; second])])
     <> Ok (spec_step_image_url [first; second]).
Proof. repeat split; try reflexivity. discriminate. Qed.

(** ** C4: recipe extraction from a search listing *)

Lemma result_items_iter fields items :
  result_items fields = Some items ->
  py_iter (default (JArr []) (dict_lookup "result" fields)) = Ok items.
Proof.
  unfold result_items.
  destruct (dict_lookup "result" fields) as [[| | | |l|]|]; simpl;
    intros H; inversion H; reflexivity.
Qed.

(** C4.  For a search listing whose [result] items are tagged objects, the
    recipes of the response are the decoded recipe-card items, in their
    order in the listing; the items of any other kind contribute nothing and
    raise nothing; and [raw] is the input itself. *)
Theorem C4_search_response_recipe_cards
  (fields : list (string * json)) (items : list json)
  (recipes : list Recipe.t) (total_count next_page : json) :
  result_items fields = Some items ->
  forallb is_obj items = true ->
  traverse parse_recipe (List.filter is_recipe_card items) = Ok recipes ->
  parse_extra (JObj fields) = Ok (total_count, next_page) ->
  parse_search_response (JObj fields)
  = Ok (SearchResponse.mk recipes total_count next_page (JObj fields))
  /\ length recipes = length (List.filter is_recipe_card items).
Proof.
  intros Hitems Hobj Hrs Hextra. split.
  - unfold parse_search_response.
    change (py_get (JObj fields) "result" (JArr []))
      with (Ok (A:=json) (default (JArr []) (dict_lookup "result" fields))).
    cbn [bind]. rewrite (result_items_iter _ _ Hitems). cbn [bind].
    rewrite (recipe_cards_filter _ Hobj), Hrs. cbn [bind].
    rewrite Hextra. reflexivity.
  - clear -Hrs. revert recipes Hrs.
    induction (List.filter is_recipe_card items) as [|x xs IH];
      simpl; intros recipes H.
    + inversion H; reflexivity.
    + destruct (parse_recipe x); simpl in H; [|discriminate].
      destruct (traverse parse_recipe xs); simpl in H; [|discriminate].
      inversion H; subst. simpl. f_equal. apply IH. reflexivity.
Qed.

Lemma C4_witness :
  parse_search_response (JObj sample_search_listing)
  = Ok (SearchResponse.mk
          [summary_recipe 1 "Recipe 1"; summary_recipe 2 "Recipe 2"]
          (JNum 100) (JNum 2) (JObj sample_search_listing)).
Proof.
  refine (proj1 (C4_search_response_recipe_cards sample_search_listing
                   (match result_items sample_search_listing with
                    | Some l => l
                    | None => []
                    end)
                   [summary_recipe 1 "Recipe 1"; summary_recipe 2 "Recipe 2"]
                   (JNum 100) (JNum 2) _ _ _ _)); reflexivity.
Defined.

(** ** C5: the cursor of a comments page *)

Lemma parse_comment_cursor fields c :
  parse_comment (JObj fields) = Ok c ->
  Comment.cursor c = default (JStr "") (dict_lookup "cursor" fields).
Proof.
  unfold parse_comment. simpl. intros H.
  apply bind_Ok_inv in H as (usr & _ & H).
  apply bind_Ok_inv in H as (u & _ & H).
  inversion H; reflexivity.
Qed.

Lemma traverse_last_comment pre fields cs :
  traverse parse_comment (pre ++ [JObj fields])%list = Ok cs ->
  exists c, last cs = Some c
            /\ Comment.cursor c = default (JStr "") (dict_lookup "cursor" fields).
Proof.
  intros H. apply traverse_app_inv in H as (us & vs & _ & Hv & ->).
  simpl in Hv. apply bind_Ok_inv in Hv as (c & Hc & Hv).
  inversion Hv; subst. exists c. split.
  - apply last_snoc.
  - apply parse_comment_cursor. exact Hc.
Qed.

Lemma truthy_not_null v : py_truthy v = true -> v <> JNull.
Proof. intros H ->. discriminate. Qed.

(** C5.  [next_cursor] is the cursor of the last decoded comment, and it is
    none exactly when there is no comment or the last one carries no cursor:
    its [cursor] is false as a condition, as is the empty string the decoder
    puts there when the key is missing.  An empty listing gives no comment
    and no cursor; a listing whose last item has a non-empty cursor gives
    that cursor; one whose last item has no [cursor] key gives none. *)
Theorem C5_next_cursor_is_last_cursor
  (fields : list (string * json)) (items : list json) (cs : list Comment.t) :
  result_items fields = Some items ->
  traverse parse_comment items = Ok cs ->
  exists next_cursor,
    parse_comments_response (JObj fields)
    = Ok (CommentsResponse.mk cs next_cursor)
    /\ (next_cursor = JNull <->
        cs = [] \/ exists c, last cs = Some c /\ py_truthy (Comment.cursor c) = false)
    /\ (next_cursor <> JNull ->
        exists c, last cs = Some c /\ next_cursor = Comment.cursor c)
    /\ (items = [] -> cs = [] /\ next_cursor = JNull)
    /\ (forall pre item s,
           items = (pre ++ [JObj item])%list ->
           dict_lookup "cursor" item = Some (JStr s) -> s <> "" ->
           next_cursor = JStr s)
    /\ (forall pre item,
           items = (pre ++ [JObj item])%list ->
           dict_lookup "cursor" item = None ->
           next_cursor = JNull).
Proof.
  intros Hitems Hcs.
  exists (match last_comment cs with
          | Some c => if py_truthy (Comment.cursor c) then Comment.cursor c else JNull
          | None => JNull
          end).
  split; [|unfold last_comment; repeat split].
  - unfold parse_comments_response.
    change (py_get (JObj fields) "result" (JArr []))
      with (Ok (A:=json) (default (JArr []) (dict_lookup "result" fields))).
    cbn [bind]. rewrite (result_items_iter _ _ Hitems). cbn [bind].
    rewrite Hcs. reflexivity.
  - destruct (last cs) as [c|] eqn:Hlast.
    + destruct (py_truthy (Comment.cursor c)) eqn:Ht.
      * intros Hnull. apply truthy_not_null in Ht. contradiction.
      * intros _. right. exists c. auto.
    + intros _. left. apply last_None. exact Hlast.
  - intros [-> | (c & -> & ->)]; reflexivity.
  - destruct (last cs) as [c|]; [|congruence].
    destruct (py_truthy (Comment.cursor c)); [|congruence].
    intros _. exists c. auto.
  - subst items. simpl in Hcs. inversion Hcs. reflexivity.
  - subst items. simpl in Hcs. inversion Hcs. reflexivity.
  - intros pre item s -> Hcur Hs.
    destruct (traverse_last_comment _ _ _ Hcs) as (c & -> & Hc).
    rewrite Hcur in Hc. simpl in Hc. rewrite Hc. simpl.
    apply String.eqb_neq in Hs. rewrite Hs. reflexivity.
  - intros pre item -> Hcur.
    destruct (traverse_last_comment _ _ _ Hcs) as (c & -> & Hc).
    rewrite Hcur in Hc. simpl in Hc. rewrite Hc. reflexivity.
Qed.

(** The two-comment page of the test suite: the cursor of the page is the
    one of the last comment. *)
Lemma C5_witness :
  exists next_cursor,
    parse_comments_response
      (JObj [("result",
              JArr [JObj [("id", JNum 1); ("body", JStr "Nice"); ("cursor", JStr "cur1")];
                    JObj [("id", JNum 2); ("body", JStr "Great"); ("cursor", JStr "cur2")]])])
    = Ok (CommentsResponse.mk
            [plain_comment 1 "Nice" "cur1"; plain_comment 2 "Great" "cur2"]
            next_cursor)
    /\ next_cursor = JStr "cur2".
Proof.
  destruct (C5_next_cursor_is_last_cursor
              [("result",
                JArr [JObj [("id", JNum 1); ("body", JStr "Nice"); ("cursor", JStr "cur1")];
                      JObj [("id", JNum 2); ("body", JStr "Great"); ("cursor", JStr "cur2")]])]
              [JObj [("id", JNum 1); ("body", JStr "Nice"); ("cursor", JStr "cur1")];
               JObj [("id", JNum 2); ("body", JStr "Great"); ("cursor", JStr "cur2")]]
              [plain_comment 1 "Nice" "cur1"; plain_comment 2 "Great" "cur2"]
              eq_refl eq_refl)
    as (nc & Hparse & _ & _ & _ & Hlast & _).
  exists nc. split; [exact Hparse|].
  apply (Hlast [JObj [("id", JNum 1); ("body", JStr "Nice"); ("cursor", JStr "cur1")]]
               [("id", JNum 2); ("body", JStr "Great"); ("cursor", JStr "cur2")]
               "cur2"); [reflexivity | reflexivity | discriminate].
Defined.

(** ** C6: the next page of a listing *)

Lemma parse_extra_page_present fields p :
  page_at_path fields = Some p ->
  parse_extra (JObj fields) = Ok (total_count_of fields, p).
Proof.
  unfold page_at_path, total_count_of, parse_extra. simpl.
  destruct (dict_lookup "extra" fields) as [[| | | | |extra]|]; simpl;
    try discriminate.
  destruct (dict_lookup "links" extra) as [[| | | | |links]|]; simpl;
    try discriminate.
  destruct (dict_lookup "next" links) as [[| | | | |next]|]; simpl;
    try discriminate.
  destruct next as [|b next]; [discriminate|].
  set (n := (b :: next)%list). intros H. cbn -[dict_lookup].
  rewrite H. reflexivity.
Qed.

Lemma parse_extra_page_absent fields :
  page_at_path fields = None ->
  envelope_ok fields = true ->
  parse_extra (JObj fields) = Ok (total_count_of fields, JNull).
Proof.
  unfold page_at_path, envelope_ok, field_ok, total_count_of, parse_extra.
  simpl.
  destruct (dict_lookup "extra" fields) as [[| | | | |extra]|]; simpl;
    try discriminate; [|reflexivity].
  unfold field_ok.
  destruct (dict_lookup "links" extra) as [[| | | | |links]|]; simpl;
    try discriminate; [|reflexivity].
  unfold field_ok, object_or_falsy.
  destruct (dict_lookup "next" links) as [next|]; simpl; [|reflexivity].
  destruct next as [|b|n|t|l|next]; simpl.
  - reflexivity.
  - destruct b; [discriminate | reflexivity].
  - destruct (negb (n =? 0)); [discriminate | reflexivity].
  - destruct (negb (String.eqb t "")); [discriminate | reflexivity].
  - destruct l; [reflexivity | discriminate].
  - destruct next as [|b next]; [reflexivity|].
    set (m := (b :: next)%list). intros H _. cbn -[dict_lookup].
    rewrite H. reflexivity.
Qed.

Lemma next_page_is_intro fields items next_page :
  result_items fields = Some items ->
  parse_extra (JObj fields) = Ok (total_count_of fields, next_page) ->
  next_page_is fields items next_page.
Proof.
  intros Hitems Hextra.
  pose proof (result_items_iter _ _ Hitems) as Hiter.
  split.
  - intros recipes Hrs. unfold parse_search_response.
    change (py_get (JObj fields) "result" (JArr []))
      with (Ok (A:=json) (default (JArr []) (dict_lookup "result" fields))).
    cbn [bind]. rewrite Hiter. cbn [bind]. rewrite Hrs. cbn [bind].
    rewrite Hextra. reflexivity.
  - intros users Hus. unfold parse_users_response.
    change (py_get (JObj fields) "result" (JArr []))
      with (Ok (A:=json) (default (JArr []) (dict_lookup "result" fields))).
    cbn [bind]. rewrite Hiter. cbn [bind]. rewrite Hus. cbn [bind].
    rewrite Hextra. reflexivity.
Qed.

(** C6, as amended.  When the path [extra.links.next.page] is present its
    value is the [next_page] of the search response and of the users
    response.  When a link of the path is absent their [next_page] is none,
    provided that [extra] and [links], where present, are objects and that
    [next], where present, is an object or a value false as a condition,
    such as null. *)
Theorem C6_next_page_from_links
  (fields : list (string * json)) (items : list json) :
  result_items fields = Some items ->
  (forall p, page_at_path fields = Some p -> next_page_is fields items p)
  /\ (page_at_path fields = None ->
      envelope_ok fields = true ->
      next_page_is fields items JNull).
Proof.
  intros Hitems. split.
  - intros p Hp. apply next_page_is_intro; [exact Hitems|].
    apply parse_extra_page_present, Hp.
  - intros Habsent Hok. apply next_page_is_intro; [exact Hitems|].
    apply parse_extra_page_absent; assumption.
Qed.

(** The users page of the test suite has a next page, 2; a last page, whose
    [next] link is null as [prev] is on the first one, has none; and so has
    a page without [links]. *)
Lemma C6_witness :
  parse_users_response
    (JObj [("result", JArr [JObj [("id", JNum 1); ("name", JStr "User1")]]);
           ("extra", JObj [("total_count", JNum 50);
                           ("links", JObj [("next", JObj [("page", JNum 2)])])])])
  = Ok (UsersResponse.mk [plain_user 1 "User1"] (JNum 50) (JNum 2))
  /\ parse_users_response
       (JObj [("result", JArr [JObj [("id", JNum 1); ("name", JStr "User1")]]);
              ("extra", JObj [("total_count", JNum 50);
                              ("links", JObj [("prev", JObj [("page", JNum 1)]);
                                              ("next", JNull)])])])
     = Ok (UsersResponse.mk [plain_user 1 "User1"] (JNum 50) JNull)
  /\ parse_search_response (JObj [("extra", JObj [("total_count", JNum 3)])])
     = Ok (SearchResponse.mk [] (JNum 3) JNull
             (JObj [("extra", JObj [("total_count", JNum 3)])])).
Proof.
  split; [|split].
  - apply (proj1 (C6_next_page_from_links
                    [("result", JArr [JObj [("id", JNum 1); ("name", JStr "User1")]]);
                     ("extra", JObj [("total_count", JNum 50);
                                     ("links", JObj [("next", JObj [("page", JNum 2)])])])]
                    [JObj [("id", JNum 1); ("name", JStr "User1")]]
                    eq_refl) (JNum 2) eq_refl).
    reflexivity.
  - apply (proj2 (C6_next_page_from_links
                    [("result", JArr [JObj [("id", JNum 1); ("name", JStr "User1")]]);
                     ("extra", JObj [("total_count", JNum 50);
                                     ("links", JObj [("prev", JObj [("page", JNum 1)]);
                                                     ("next", JNull)])])]
                    [JObj [("id", JNum 1); ("name", JStr "User1")]]
                    eq_refl) eq_refl eq_refl).
    reflexivity.
  - apply (proj2 (C6_next_page_from_links
                    [("extra", JObj [("total_count", JNum 3)])] []
                    eq_refl) eq_refl eq_refl).
    reflexivity.
Defined.

(** C6, as stated, fails: with [extra] explicitly null, or [links]
    explicitly null, the links of the path are absent and yet no response
    with a none [next_page] is returned: [None.get] raises. *)
Lemma C6_counterexample :
  let no_extra := [("result", JArr []); ("extra", JNull)] in
  let no_links := [("result", JArr []); ("extra", JObj [("links", JNull)])] in
  page_at_path no_extra = None
  /\ page_at_path no_links = None
  /\ parse_search_response (JObj no_extra) = Raise (builtin_exc AttributeError)
  /\ parse_users_response (JObj no_extra) = Raise (builtin_exc AttributeError)
  /\ parse_users_response (JObj no_links) = Raise (builtin_exc AttributeError)
  /\ ~ next_page_is no_extra [] JNull
  /\ ~ next_page_is no_links [] JNull.
Proof.
  repeat (split; [reflexivity|]).
  split; intros [_ H]; specialize (H [] eq_refl); discriminate H.
Qed.

(** ** The client: requests and handles *)

Lemma handles_ok_init : handles_ok init_state.
Proof. split; simpl; [set_solver | discriminate]. Qed.

Lemma handles_ok_aenter st : handles_ok st -> handles_ok (__aenter__ st).
Proof.
  intros [Hc Hh]. split; simpl.
  - intros h Hin. specialize (Hc h Hin). lia.
  - intros h [= <-]. split; [|lia].
    intros Hin. specialize (Hc _ Hin). lia.
Qed.

Lemma handles_ok_aexit st : handles_ok st -> handles_ok (__aexit__ st).
Proof.
  intros Hok. unfold __aexit__.
  destruct (_client st) as [h|] eqn:Hcl; [|exact Hok].
  destruct Hok as [Hc Hh]. destruct (Hh h Hcl) as [_ Hlt].
  split; simpl.
  - intros h' Hin. apply elem_of_union in Hin as [Hin|Hin]; [|auto].
    apply elem_of_singleton in Hin. subst. exact Hlt.
  - discriminate.
Qed.

(** What a request does to the client, whatever the server answers: it goes
    out on the client's handle, a new one when the client holds none, and
    that handle is open. *)
Lemma request_effects E cfg path params st :
  handles_ok st ->
  let st' := snd (_request E cfg path params st) in
  _client st' = Some (request_handle st)
  /\ (request_handle st ∉ closed st)
  /\ closed st' = closed st
  /\ sent st' = (sent st ++ [request_of E cfg path params st])%list
  /\ next_handle st' = match _client st with
                       | Some _ => next_handle st
                       | None => S (next_handle st)
                       end
  /\ uuids_drawn st' = S (uuids_drawn st)
  /\ handles_ok st'.
Proof.
  intros Hok.
  assert (Hopen : request_handle st ∉ closed st).
  { destruct Hok as [Hc Hh]. unfold request_handle.
    destruct (_client st) as [h|]; [apply (Hh h eq_refl)|].
    intros Hin. specialize (Hc _ Hin). lia. }
  assert (Hnext : forall s u n,
             handles_ok
               (State (Some (request_handle st))
                  (match _client st with
                   | Some _ => next_handle st
                   | None => S (next_handle st)
                   end) (closed st) s u n)).
  { destruct Hok as [Hc Hh]. intros s u n. split; simpl.
    - intros h Hin. specialize (Hc _ Hin).
      destruct (_client st); lia.
    - intros h [= <-]. split; [exact Hopen|]. unfold request_handle.
      destruct (_client st) as [h|]; [apply (Hh h eq_refl) | lia]. }
  unfold _request, request_of.
  assert (Hpre :
            match _client st with
            | Some h => (h, st)
            | None => let '(h, st0) := new_client st in (h, set_client (Some h) st0)
            end
            = (request_handle st,
               State (Some (request_handle st))
                 (match _client st with
                  | Some _ => next_handle st
                  | None => S (next_handle st)
                  end) (closed st) (sent st) (uuids_drawn st) (json_decodes st))).
  { unfold request_handle. destruct (_client st) eqn:Hcl; simpl; [|reflexivity].
    destruct st; simpl in *. subst. reflexivity. }
  rewrite Hpre. clear Hpre.
  unfold _headers, transport_get. simpl.
  destruct (decide (request_handle st ∈ closed st)) as [Hin|_]; [contradiction|].
  destruct (server E (length (sent st)) _) as [resp|e]; simpl.
  - destruct (status_code resp =? 401);
      [|destruct (status_code resp =? 404);
        [|destruct (status_code resp =? 429);
          [|destruct (400 <=? status_code resp)]]];
      simpl;
      do 6 (split; [first [reflexivity | exact Hopen]|]); apply Hnext.
  - do 6 (split; [first [reflexivity | exact Hopen]|]); apply Hnext.
Qed.

(** The outcome of a request the server answers: the status is examined
    first, and [resp.json()] is called only when no error is raised. *)
Lemma request_outcome E cfg path params st resp :
  handles_ok st ->
  server E (length (sent st)) (request_of E cfg path params st) = Ok resp ->
  fst (_request E cfg path params st)
  = (if status_code resp =? 401
     then Raise (Raised AuthenticationError "Authentication failed" None)
     else if status_code resp =? 404
     then Raise (Raised NotFoundError ("Not found: " ++ path) None)
     else if status_code resp =? 429
     then Raise (Raised RateLimitError "Rate limit exceeded" None)
     else if 400 <=? status_code resp
     then Raise (Raised APIError
                   ("API error (" ++ decimal (status_code resp) ++ "): "
                    ++ text resp)
                   (Some (status_code resp)))
     else json_body resp)
  /\ json_decodes (snd (_request E cfg path params st))
     = (if 400 <=? status_code resp
        then json_decodes st
        else S (json_decodes st)).
Proof.
  intros Hok Hresp.
  destruct (request_effects E cfg path params st Hok) as (_ & Hopen & _).
  revert Hresp. unfold _request, request_of.
  assert (Hpre :
            match _client st with
            | Some h => (h, st)
            | None => let '(h, st0) := new_client st in (h, set_client (Some h) st0)
            end
            = (request_handle st,
               State (Some (request_handle st))
                 (match _client st with
                  | Some _ => next_handle st
                  | None => S (next_handle st)
                  end) (closed st) (sent st) (uuids_drawn st) (json_decodes st))).
  { unfold request_handle. destruct (_client st) eqn:Hcl; simpl; [|reflexivity].
    destruct st; simpl in *. subst. reflexivity. }
  rewrite Hpre. clear Hpre.
  unfold _headers, transport_get. simpl.
  destruct (decide (request_handle st ∈ closed st)) as [Hin|_]; [contradiction|].
  intros ->. simpl.
  destruct (status_code resp =? 401) eqn:H401;
    [apply Z.eqb_eq in H401; rewrite H401; split; reflexivity|].
  destruct (status_code resp =? 404) eqn:H404;
    [apply Z.eqb_eq in H404; rewrite H404; split; reflexivity|].
  destruct (status_code resp =? 429) eqn:H429;
    [apply Z.eqb_eq in H429; rewrite H429; split; reflexivity|].
  destruct (400 <=? status_code resp); split; reflexivity.
Qed.

Lemma call_request E cfg op st :
  call E cfg op st
  = and_then (_request E cfg (op_path op) (op_params E op) st) (op_decode op).
Proof.
  destruct op; simpl;
    unfold returning, and_then, search_recipes, get_recipe,
      get_similar_recipes, get_comments, search_users, search_keywords,
      get_search_history, and_then; simpl;
    match goal with
    | |- context [_request ?E ?c ?p ?q ?s] =>
        destruct (_request E c p q s) as [[data|e] st']
    end; reflexivity.
Qed.

Lemma handles_ok_step E cfg st a : handles_ok st -> handles_ok (step E cfg st a).
Proof.
  intros Hok. destruct a as [| |op]; simpl.
  - apply handles_ok_aenter, Hok.
  - apply handles_ok_aexit, Hok.
  - rewrite call_request. simpl. apply request_effects, Hok.
Qed.

Lemma handles_ok_fold E cfg actions st :
  handles_ok st -> handles_ok (fold_left (step E cfg) actions st).
Proof.
  revert st. induction actions as [|a actions IH]; simpl; intros st Hok.
  - exact Hok.
  - apply IH, handles_ok_step, Hok.
Qed.

Lemma handles_ok_run E cfg actions : handles_ok (run E cfg actions).
Proof. apply handles_ok_fold, handles_ok_init. Qed.

(** ** C7: status triage *)

(** C7.  Whatever the operation, when the server answers with a status of
    400 or more the call raises: [AuthenticationError] on 401,
    [NotFoundError] on 404 with the requested path in its message,
    [RateLimitError] on 429, and [APIError] on any other such status, with
    the status code and the response text in its message and the status code
    as an attribute.  The four classes are distinct subclasses of
    [CookpadError], and [resp.json()] is not called. *)
Theorem C7_status_triage
  (E : environment) (cfg : config) (op : operation) (st : state)
  (resp : response) :
  handles_ok st ->
  server E (length (sent st))
    (request_of E cfg (op_path op) (op_params E op) st) = Ok resp ->
  400 <= status_code resp ->
  (exists e,
      fst (call E cfg op st) = Raise e
      /\ (status_code resp = 401 ->
          e = Raised AuthenticationError "Authentication failed" None)
      /\ (status_code resp = 404 ->
          e = Raised NotFoundError ("Not found: " ++ op_path op) None)
      /\ (status_code resp = 429 ->
          e = Raised RateLimitError "Rate limit exceeded" None)
      /\ (status_code resp <> 401 -> status_code resp <> 404 ->
          status_code resp <> 429 ->
          e = Raised APIError
                ("API error (" ++ decimal (status_code resp) ++ "): "
                 ++ text resp)
                (Some (status_code resp)))
      /\ issubclass (exn_class e) CookpadError = true)
  /\ json_decodes (snd (call E cfg op st)) = json_decodes st
  /\ NoDup [AuthenticationError; NotFoundError; RateLimitError; APIError]
  /\ Forall (fun c => issubclass c CookpadError = true)
       [AuthenticationError; NotFoundError; RateLimitError; APIError].
Proof.
  intros Hok Hresp Hstatus.
  destruct (request_outcome E cfg _ _ st resp Hok Hresp) as [Hfst Hdec].
  rewrite call_request. unfold and_then. simpl. rewrite Hfst, Hdec.
  assert (H400 : (400 <=? status_code resp) = true) by (apply Z.leb_le; lia).
  rewrite H400.
  split; [|split; [reflexivity|split]].
  - destruct (status_code resp =? 401) eqn:H401.
    { apply Z.eqb_eq in H401. eexists. split; [reflexivity|].
      repeat split; try reflexivity; intros; lia. }
    destruct (status_code resp =? 404) eqn:H404.
    { apply Z.eqb_eq in H404. eexists. split; [reflexivity|].
      repeat split; try reflexivity; intros; lia. }
    destruct (status_code resp =? 429) eqn:H429.
    { apply Z.eqb_eq in H429. eexists. split; [reflexivity|].
      repeat split; try reflexivity; intros; lia. }
    apply Z.eqb_neq in H401, H404, H429.
    eexists. split; [reflexivity|].
    repeat split; try reflexivity; intros; lia.
  - repeat (apply NoDup_cons; split);
      rewrite ?elem_of_cons, ?elem_of_nil; try apply NoDup_nil_2;
      intuition discriminate.
  - repeat constructor.
Qed.

Lemma C7_witness :
  fst (call not_found_server default_config (GetRecipe 999999999) init_state)
  = Raise (Raised NotFoundError "Not found: /recipes/999999999" None)
  /\ json_decodes
       (snd (call not_found_server default_config (GetRecipe 999999999)
               init_state))
     = 0%nat.
Proof.
  destruct (C7_status_triage not_found_server default_config
              (GetRecipe 999999999) init_state
              (Response 404 "<html>Not Found</html>"
                 (Raise (builtin_exc JSONDecodeError)))
              handles_ok_init eq_refl ltac:(simpl; lia))
    as ((e & He & _ & H404 & _) & Hdec & _).
  split; [|exact Hdec].
  rewrite He, (H404 eq_refl). reflexivity.
Defined.

(** ** C8: the query parameters of [search_recipes] *)

Lemma lower_str_bool b : lower (str_bool b) = if b then "true" else "false".
Proof. destruct b; reflexivity. Qed.

Lemma search_params_included q p pp o mc mn mp inc exc :
  search_recipes_params q p pp o mc mn mp inc exc !! "included_ingredients"
  = if String.eqb inc "" then None else Some (JStr inc).
Proof.
  unfold search_recipes_params. simpl.
  destruct (String.eqb inc ""), (String.eqb exc ""); reflexivity.
Qed.

Lemma search_params_excluded q p pp o mc mn mp inc exc :
  search_recipes_params q p pp o mc mn mp inc exc !! "excluded_ingredients"
  = if String.eqb exc "" then None else Some (JStr exc).
Proof.
  unfold search_recipes_params. simpl.
  destruct (String.eqb inc ""), (String.eqb exc ""); reflexivity.
Qed.

Lemma search_params_booleans q p pp o mc mn mp inc exc :
  search_recipes_params q p pp o mc mn mp inc exc !! "must_have_cooksnaps"
  = Some (JStr (if mc then "true" else "false"))
  /\ search_recipes_params q p pp o mc mn mp inc exc !! "must_have_photo_in_steps"
     = Some (JStr (if mp then "true" else "false")).
Proof.
  unfold search_recipes_params. simpl. rewrite !lower_str_bool.
  destruct (String.eqb inc ""), (String.eqb exc ""); split; reflexivity.
Qed.

(** C8.  The request [search_recipes] sends carries the key
    [included_ingredients] exactly when that argument is not the empty
    string, and then with the argument as its value; likewise
    [excluded_ingredients]; and [must_have_cooksnaps] and
    [must_have_photo_in_steps] are sent as the strings "true" or "false". *)
Theorem C8_search_recipes_parameters
  (E : environment) (cfg : config) (actions : list action)
  (query : string) (page per_page : Z) (order : string)
  (must_have_cooksnaps : bool) (minimum_cooksnaps : Z)
  (must_have_photo_in_steps : bool)
  (included_ingredients excluded_ingredients : string) :
  let st := run E cfg actions in
  exists params,
    sent (snd (search_recipes E cfg query page per_page order
                 must_have_cooksnaps minimum_cooksnaps
                 must_have_photo_in_steps included_ingredients
                 excluded_ingredients st))
    = (sent st ++ [request_of E cfg "/search_results" (Some params) st])%list
    /\ ("included_ingredients" ∈ dom params <-> included_ingredients <> "")
    /\ (included_ingredients <> "" ->
        params !! "included_ingredients" = Some (JStr included_ingredients))
    /\ ("excluded_ingredients" ∈ dom params <-> excluded_ingredients <> "")
    /\ (excluded_ingredients <> "" ->
        params !! "excluded_ingredients" = Some (JStr excluded_ingredients))
    /\ params !! "must_have_cooksnaps"
       = Some (JStr (if must_have_cooksnaps then "true" else "false"))
    /\ params !! "must_have_photo_in_steps"
       = Some (JStr (if must_have_photo_in_steps then "true" else "false")).
Proof.
  intros st.
  exists (search_recipes_params query page per_page order must_have_cooksnaps
            minimum_cooksnaps must_have_photo_in_steps included_ingredients
            excluded_ingredients).
  split.
  { unfold search_recipes, and_then. simpl.
    apply request_effects, handles_ok_run. }
  rewrite !elem_of_dom, search_params_included, search_params_excluded.
  destruct (search_params_booleans query page per_page order
              must_have_cooksnaps minimum_cooksnaps must_have_photo_in_steps
              included_ingredients excluded_ingredients) as [-> ->].
  destruct (String.eqb_spec included_ingredients "") as [Hi|Hi],
           (String.eqb_spec excluded_ingredients "") as [He|He];
    repeat split; try congruence; eauto;
    try (intros [v Hv]; discriminate).
Qed.

(** ** C9: the transport handle *)

Lemma run_snoc E cfg actions a :
  run E cfg (actions ++ [a])%list = step E cfg (run E cfg actions) a.
Proof. unfold run. rewrite fold_left_app. reflexivity. Qed.

Lemma aexit_releases st :
  _client (__aexit__ st) = None
  /\ (forall h, _client st = Some h -> closed (__aexit__ st) = {[h]} ∪ closed st)
  /\ (_client st = None -> __aexit__ st = st)
  /\ __aexit__ (__aexit__ st) = __aexit__ st.
Proof.
  assert (Hnone : _client (__aexit__ st) = None).
  { unfold __aexit__. destruct (_client st) eqn:Hcl; [reflexivity | exact Hcl]. }
  split; [exact Hnone|]. split; [|split].
  - intros h Hcl. unfold __aexit__. rewrite Hcl. reflexivity.
  - intros Hcl. unfold __aexit__. rewrite Hcl. reflexivity.
  - unfold __aexit__ at 1. rewrite Hnone. reflexivity.
Qed.

(** C9.  In every state a sequence of scope entries, scope exits and
    operations leads to: entering the scope makes the client hold a handle
    just created; an operation sends its request on the handle the client
    holds, or on one it creates when it holds none, and that handle is open;
    leaving the scope closes the held handle and leaves the client with
    none, and leaving again changes nothing; and an operation called after the
    scope was left sends its request on a newly created, open handle. *)
Theorem C9_handle_lifecycle
  (E : environment) (cfg : config) (actions : list action) (op : operation) :
  let st := run E cfg actions in
  let after := snd (call E cfg op st) in
  let released := run E cfg (actions ++ [Exit])%list in
  let again := snd (call E cfg op released) in
  (_client (__aenter__ st) = Some (next_handle st)
   /\ (next_handle st ∉ closed (__aenter__ st)))
  /\ (sent after
      = (sent st ++ [request_of E cfg (op_path op) (op_params E op) st])%list
      /\ req_handle (request_of E cfg (op_path op) (op_params E op) st)
         = request_handle st
      /\ (request_handle st ∉ closed st)
      /\ _client after = Some (request_handle st)
      /\ (_client st = None ->
          request_handle st = next_handle st
          /\ next_handle after = S (next_handle st))
      /\ (forall h, _client st = Some h ->
                    request_handle st = h /\ next_handle after = next_handle st))
  /\ (_client (__aexit__ st) = None
      /\ (forall h, _client st = Some h ->
                    closed (__aexit__ st) = {[h]} ∪ closed st)
      /\ (_client st = None -> __aexit__ st = st)
      /\ __aexit__ (__aexit__ st) = __aexit__ st)
  /\ (released = __aexit__ st
      /\ _client released = None
      /\ sent again
         = (sent released
              ++ [request_of E cfg (op_path op) (op_params E op) released])%list
      /\ request_handle released = next_handle released
      /\ (next_handle released ∉ closed released)
      /\ _client again = Some (next_handle released)).
Proof.
  intros st after released again.
  pose proof (handles_ok_run E cfg actions) as Hok. fold st in Hok.
  pose proof (handles_ok_run E cfg (actions ++ [Exit])%list) as Hrel.
  fold released in Hrel.
  assert (Hreleased : released = __aexit__ st)
    by (subst released st; apply run_snoc).
  destruct (aexit_releases st) as (Hnone & Hclosed & Hnoop & Hidem).
  split; [|split; [|split]].
  - split; [reflexivity|]. simpl. intros Hin.
    destruct Hok as [Hc _]. specialize (Hc _ Hin). lia.
  - subst after. rewrite call_request. simpl.
    destruct (request_effects E cfg (op_path op) (op_params E op) st Hok)
      as (Hcl & Hopen & _ & Hsent & Hnext & _).
    split; [exact Hsent|]. split; [reflexivity|]. split; [exact Hopen|].
    split; [exact Hcl|]. split.
    + intros Hn. rewrite Hnext. unfold request_handle. rewrite Hn. auto.
    + intros h Hh. rewrite Hnext. unfold request_handle. rewrite Hh. auto.
  - auto.
  - assert (Hn : _client released = None) by (rewrite Hreleased; exact Hnone).
    assert (Hh : request_handle released = next_handle released)
      by (unfold request_handle; rewrite Hn; reflexivity).
    subst again. rewrite call_request. simpl.
    destruct (request_effects E cfg (op_path op) (op_params E op) released Hrel)
      as (Hcl & Hopen & _ & Hsent & _).
    rewrite Hh in Hcl, Hopen.
    split; [exact Hreleased|]. split; [exact Hn|]. split; [exact Hsent|].
    split; [exact Hh|]. split; [exact Hopen | exact Hcl].
Qed.

(** ** C10: a body without [result] *)

(** C10.  When the server answers with a status below 400 and a JSON object
    that has no [result] key, [get_recipe] raises [KeyError] for that key,
    while [get_similar_recipes] returns the empty list. *)
Theorem C10_missing_result
  (E : environment) (cfg : config) (st : state) (resp : response)
  (body : list (string * json)) (recipe_id page per_page : Z) :
  handles_ok st ->
  (forall req, server E (length (sent st)) req = Ok resp) ->
  status_code resp < 400 ->
  json_body resp = Ok (JObj body) ->
  dict_lookup "result" body = None ->
  fst (get_recipe E cfg recipe_id st) = Raise (Raised KeyError "result" None)
  /\ fst (get_similar_recipes E cfg recipe_id page per_page st) = Ok [].
Proof.
  intros Hok Hserver Hstatus Hbody Hmissing.
  assert (H401 : (status_code resp =? 401) = false) by (apply Z.eqb_neq; lia).
  assert (H404 : (status_code resp =? 404) = false) by (apply Z.eqb_neq; lia).
  assert (H429 : (status_code resp =? 429) = false) by (apply Z.eqb_neq; lia).
  assert (H400 : (400 <=? status_code resp) = false) by (apply Z.leb_gt; lia).
  split.
  - unfold get_recipe, and_then. simpl.
    destruct (request_outcome E cfg ("/recipes/" ++ decimal recipe_id) None
                st resp Hok (Hserver _)) as [-> _].
    rewrite H401, H404, H429, H400, Hbody. simpl. rewrite Hmissing.
    reflexivity.
  - unfold get_similar_recipes, and_then. simpl.
    destruct (request_outcome E cfg
                ("/recipes/" ++ decimal recipe_id ++ "/similar_recipes")
                (Some (<["per_page" := JNum per_page]>
                         (<["page" := JNum page]> ∅)))
                st resp Hok (Hserver _)) as [-> _].
    rewrite H401, H404, H429, H400, Hbody. simpl. rewrite Hmissing.
    reflexivity.
Qed.

Lemma C10_witness :
  fst (get_recipe empty_object_server default_config 25410768 init_state)
  = Raise (Raised KeyError "result" None)
  /\ fst (get_similar_recipes empty_object_server default_config 25410768 1 30
            init_state)
     = Ok [].
Proof.
  apply (C10_missing_result empty_object_server default_config init_state
           (Response 200 "{}" (Ok (JObj []))) [] 25410768 1 30
           handles_ok_init).
  - intros req. reflexivity.
  - simpl. lia.
  - reflexivity.
  - reflexivity.
Defined.

(** * Further properties of the decoder *)

(** ** What the decoders raise *)

Lemma ose_ok {A} (a : A) : only_shape_errors (Ok a).
Proof. intros e H. discriminate. Qed.

Lemma ose_bind {A B} (m : result A) (k : A -> result B) :
  only_shape_errors m -> (forall a, only_shape_errors (k a)) ->
  only_shape_errors (bind m k).
Proof.
  intros Hm Hk e. destruct m as [a|e']; simpl.
  - apply Hk.
  - intros [= <-]. apply Hm. reflexivity.
Qed.

Lemma ose_py_get v k d : only_shape_errors (py_get v k d).
Proof. intros e. destruct v; simpl; intros [= <-]; right; reflexivity. Qed.

Lemma ose_py_iter v : only_shape_errors (py_iter v).
Proof. intros e. destruct v; simpl; intros [= <-]; left; reflexivity. Qed.

Lemma ose_traverse {A B} (f : A -> result B) xs :
  (forall x, only_shape_errors (f x)) -> only_shape_errors (traverse f xs).
Proof.
  intros Hf. induction xs as [|x xs IH]; simpl.
  - apply ose_ok.
  - apply ose_bind; [apply Hf|]. intros y.
    apply ose_bind; [apply IH|]. intros ys. apply ose_ok.
Qed.

Lemma ose_nested_url img :
  only_shape_errors (if py_truthy img then py_get img "url" JNull else Ok JNull).
Proof. destruct (py_truthy img); [apply ose_py_get | apply ose_ok]. Qed.

Ltac ose_step :=
  first [ apply ose_ok
        | apply ose_py_get
        | apply ose_py_iter
        | apply ose_nested_url
        | match goal with
          | |- only_shape_errors (if ?b then _ else _) => destruct b
          end
        | apply ose_bind; [|intros ?] ].

Lemma ose_parse_image repr_str data :
  only_shape_errors (parse_image repr_str data).
Proof. unfold parse_image. repeat ose_step. Qed.

Lemma ose_parse_ingredient data : only_shape_errors (parse_ingredient data).
Proof. unfold parse_ingredient. repeat ose_step. Qed.

(** The subscript [att["url"]] is reached only after ["url" in att] held, so
    on a dict it finds the key: no [KeyError] leaves the loop. *)
Lemma ose_attachments_loop atts : only_shape_errors (attachments_loop atts).
Proof.
  induction atts as [|att rest IH]; simpl; [apply ose_ok|].
  destruct att as [| | |s|items|fields]; simpl;
    try (intros e [= <-]; left; reflexivity).
  - destruct (substringb "url" s); intros e [= <-];
      [left | right]; reflexivity.
  - destruct (existsb _ items); intros e [= <-];
      [left | right]; reflexivity.
  - unfold dict_has. destruct (dict_lookup "url" fields) as [u|]; simpl.
    + apply ose_ok.
    + destruct (py_truthy _); [apply ose_py_get | exact IH].
Qed.

Lemma ose_parse_step data : only_shape_errors (parse_step data).
Proof.
  unfold parse_step. repeat first [apply ose_attachments_loop | ose_step].
Qed.

Lemma ose_parse_user data : only_shape_errors (parse_user data).
Proof. unfold parse_user. repeat ose_step. Qed.

Lemma ose_user_field user_data :
  only_shape_errors (if py_truthy user_data
                     then do u <- parse_user user_data; Ok (Some u)
                     else Ok None).
Proof.
  destruct (py_truthy user_data); [|apply ose_ok].
  apply ose_bind; [apply ose_parse_user | intros u; apply ose_ok].
Qed.

Lemma ose_parse_recipe data : only_shape_errors (parse_recipe data).
Proof.
  unfold parse_recipe.
  repeat first [ apply ose_user_field
               | apply ose_traverse; intros ?;
                 first [apply ose_parse_ingredient | apply ose_parse_step]
               | ose_step ].
Qed.

Lemma ose_parse_comment data : only_shape_errors (parse_comment data).
Proof. unfold parse_comment. repeat first [apply ose_user_field | ose_step]. Qed.

Lemma ose_recipe_cards items : only_shape_errors (recipe_cards items).
Proof.
  induction items as [|item rest IH]; simpl; [apply ose_ok|].
  apply ose_bind; [apply ose_py_get|]. intros ty.
  destruct (py_eq_str ty "search_results/recipe"); [|exact IH].
  apply ose_bind; [apply ose_parse_recipe|]. intros r.
  apply ose_bind; [exact IH|]. intros rs. apply ose_ok.
Qed.

Lemma ose_parse_extra data : only_shape_errors (parse_extra data).
Proof. unfold parse_extra. repeat ose_step. Qed.

Lemma ose_parse_search_response data :
  only_shape_errors (parse_search_response data).
Proof.
  unfold parse_search_response.
  repeat first [apply ose_recipe_cards | apply ose_parse_extra | ose_step].
Qed.

Lemma ose_parse_comments_response data :
  only_shape_errors (parse_comments_response data).
Proof.
  unfold parse_comments_response.
  repeat first [ apply ose_traverse; intros ?; apply ose_parse_comment
               | ose_step ].
Qed.

Lemma ose_parse_users_response data :
  only_shape_errors (parse_users_response data).
Proof.
  unfold parse_users_response.
  repeat first [ apply ose_traverse; intros ?; apply ose_parse_user
               | apply ose_parse_extra
               | ose_step ].
Qed.

Lemma ose_fmap {A B} (f : A -> B) (r : result A) :
  only_shape_errors r -> only_shape_errors (f <$> r).
Proof.
  intros Hr e. destruct r as [a|e']; simpl; [discriminate|].
  intros [= <-]. apply Hr. reflexivity.
Qed.

(** X1.  Whatever the payload, a decoder that raises raises [TypeError] or
    [AttributeError] of the interpreter: never a [KeyError], and never one of
    the client's own error kinds. *)
Theorem decoders_raise_only_shape_errors
  (repr_str : string -> string) (d : decoder) (data : json) (e : exn) :
  decode_outcome repr_str d data = Raise e ->
  shape_error e
  /\ exn_class e <> KeyError
  /\ issubclass (exn_class e) CookpadError = false.
Proof.
  intros H.
  assert (Hs : shape_error e).
  { revert e H. change (only_shape_errors (decode_outcome repr_str d data)).
    destruct d; simpl; apply ose_fmap.
    - apply ose_parse_image.
    - apply ose_parse_ingredient.
    - apply ose_parse_step.
    - apply ose_parse_user.
    - apply ose_parse_recipe.
    - apply ose_parse_comment.
    - apply ose_parse_search_response.
    - apply ose_parse_comments_response.
    - apply ose_parse_users_response. }
  split; [exact Hs|].
  destruct Hs as [-> | ->]; split; first [discriminate | reflexivity].
Qed.

Lemma decoders_raise_only_shape_errors_witness :
  shape_error (builtin_exc TypeError)
  /\ exn_class (builtin_exc TypeError) <> KeyError
  /\ issubclass (exn_class (builtin_exc TypeError)) CookpadError = false.
Proof.
  apply (decoders_raise_only_shape_errors (fun s => s) DecodeRecipe
           (JObj [("ingredients", JNum 3)]) (builtin_exc TypeError)).
  reflexivity.
Defined.

(** X2.  A payload that is not an object makes every decoder raise
    [AttributeError], at its first [data.get]. *)
Theorem decoders_reject_non_objects
  (repr_str : string -> string) (d : decoder) (data : json) :
  is_obj data = false ->
  decode_outcome repr_str d data = Raise (builtin_exc AttributeError).
Proof.
  intros H. destruct data; try discriminate H; destruct d; reflexivity.
Qed.

Lemma decoders_reject_non_objects_witness :
  decode_outcome (fun s => s) DecodeSearchResponse (JArr [])
  = Raise (builtin_exc AttributeError).
Proof.
  apply (decoders_reject_non_objects (fun s => s) DecodeSearchResponse (JArr [])).
  reflexivity.
Defined.

(** ** Text fields that go through [or ""] *)

Lemma py_or_coalesced v : coalesced (py_or v (JStr "")).
Proof.
  unfold py_or, coalesced. destruct (py_truthy v) eqn:Hv; [left | right];
    auto.
Qed.

Ltac bind_inv H :=
  repeat match type of H with
         | bind ?m _ = Ok _ =>
             let a := fresh "a" in
             let Ha := fresh "Ha" in
             apply bind_Ok_inv in H as (a & Ha & H)
         end.

(** X3.  [User.profile_message] and the [story], [serving] and [advice] of
    a recipe are never none, nor any other value that is false as a
    condition (0, false, an empty list): such a value is replaced by the
    empty string. *)
Theorem coalesced_text_fields
  (user_data recipe_data : json) (u : User.t) (r : Recipe.t) :
  parse_user user_data = Ok u ->
  parse_recipe recipe_data = Ok r ->
  coalesced (User.profile_message u)
  /\ coalesced (Recipe.story r)
  /\ coalesced (Recipe.serving r)
  /\ coalesced (Recipe.advice r)
  /\ User.profile_message u <> JNull
  /\ Recipe.story r <> JNull.
Proof.
  intros Hu Hr.
  unfold parse_user in Hu. bind_inv Hu. inversion Hu; subst; clear Hu.
  unfold parse_recipe in Hr. bind_inv Hr. inversion Hr; subst; clear Hr.
  simpl.
  assert (Hnn : forall v, coalesced v -> v <> JNull)
    by (intros v [Hv | ->]; [intros ->; discriminate | discriminate]).
  repeat split; try apply py_or_coalesced; apply Hnn, py_or_coalesced.
Qed.

Lemma coalesced_text_fields_witness :
  parse_user (JObj [("profile_message", JNum 0)]) = Ok (plain_user 0 "")
  /\ parse_recipe (JObj [("story", JArr []); ("advice", JNull)])
     = Ok (summary_recipe 0 "")
  /\ coalesced (User.profile_message (plain_user 0 ""))
  /\ coalesced (Recipe.story (summary_recipe 0 "")).
Proof.
  split; [reflexivity|]. split; [reflexivity|].
  destruct (coalesced_text_fields (JObj [("profile_message", JNum 0)])
              (JObj [("story", JArr []); ("advice", JNull)])
              (plain_user 0 "") (summary_recipe 0 "") eq_refl eq_refl)
    as (H1 & H2 & _).
  split; assumption.
Defined.

(** ** Nested objects *)

Lemma parse_user_raises data e :
  parse_user data = Raise e -> e = builtin_exc AttributeError.
Proof.
  unfold parse_user. destruct data as [| | | | |fields]; simpl;
    try (intros [= <-]; reflexivity).
  destruct (default JNull (dict_lookup "image" fields)) as [|b|n|s|l|image];
    simpl.
  - discriminate.
  - destruct b; simpl; [intros [= <-]; reflexivity | discriminate].
  - destruct (negb (n =? 0)); simpl; [intros [= <-]; reflexivity | discriminate].
  - destruct (negb (String.eqb s "")); simpl;
      [intros [= <-]; reflexivity | discriminate].
  - destruct l; simpl; [discriminate | intros [= <-]; reflexivity].
  - destruct image; simpl; discriminate.
Qed.

Lemma nested_url_wrong_kind v :
  py_truthy v = true -> is_obj v = false ->
  (if py_truthy v then py_get v "url" JNull else Ok JNull)
  = Raise (builtin_exc AttributeError).
Proof.
  intros -> Hobj. destruct v; try reflexivity. discriminate.
Qed.

(** X4.  An [image] that holds as a condition but is not an object (a URL
    given as a plain string, say) makes [parse_user], [parse_recipe] and
    [parse_comment] raise [AttributeError]. *)
Theorem image_of_wrong_kind_raises
  (fields : list (string * json)) (v : json) :
  dict_lookup "image" fields = Some v ->
  py_truthy v = true ->
  is_obj v = false ->
  parse_user (JObj fields) = Raise (builtin_exc AttributeError)
  /\ parse_recipe (JObj fields) = Raise (builtin_exc AttributeError)
  /\ parse_comment (JObj fields) = Raise (builtin_exc AttributeError).
Proof.
  intros Himg Ht Hobj.
  pose proof (nested_url_wrong_kind v Ht Hobj) as Hraise.
  split; [|split].
  - unfold parse_user. simpl. rewrite Himg. simpl. rewrite Hraise.
    reflexivity.
  - unfold parse_recipe. simpl. rewrite Himg. simpl. rewrite Hraise.
    reflexivity.
  - unfold parse_comment. simpl.
    destruct (py_truthy (default JNull (dict_lookup "user" fields))).
    + destruct (parse_user (default JNull (dict_lookup "user" fields)))
        as [u|e] eqn:Hu; simpl.
      * rewrite Himg. simpl. rewrite Hraise. reflexivity.
      * apply parse_user_raises in Hu. subst. reflexivity.
    + simpl. rewrite Himg. simpl. rewrite Hraise. reflexivity.
Qed.

Lemma image_of_wrong_kind_raises_witness :
  parse_user (JObj [("id", JNum 1); ("image", JStr "https://example.com/a.jpg")])
  = Raise (builtin_exc AttributeError).
Proof.
  apply (image_of_wrong_kind_raises
           [("id", JNum 1); ("image", JStr "https://example.com/a.jpg")]
           (JStr "https://example.com/a.jpg")); reflexivity.
Defined.

(** X5.  The owner of a recipe or of a comment: none when [user] is missing
    or false as a condition (null, an empty object); otherwise the user
    [parse_user] decodes from it. *)
Theorem owner_is_decoded_user
  (recipe_fields comment_fields : list (string * json))
  (r : Recipe.t) (c : Comment.t) :
  parse_recipe (JObj recipe_fields) = Ok r ->
  parse_comment (JObj comment_fields) = Ok c ->
  let ru := default JNull (dict_lookup "user" recipe_fields) in
  let cu := default JNull (dict_lookup "user" comment_fields) in
  (if py_truthy ru
   then exists u, parse_user ru = Ok u /\ Recipe.user r = Some u
   else Recipe.user r = None)
  /\ (if py_truthy cu
      then exists u, parse_user cu = Ok u /\ Comment.user c = Some u
      else Comment.user c = None).
Proof.
  intros Hr Hc ru cu. subst ru cu. split.
  - unfold parse_recipe in Hr. simpl in Hr.
    apply bind_Ok_inv in Hr as (url & _ & Hr).
    apply bind_Ok_inv in Hr as (usr & Husr & Hr).
    bind_inv Hr. inversion Hr; subst; clear Hr. simpl.
    destruct (py_truthy (default JNull (dict_lookup "user" recipe_fields))).
    + apply bind_Ok_inv in Husr as (u & Hu & Hsome).
      inversion Hsome; subst. exists u. auto.
    + inversion Husr. reflexivity.
  - unfold parse_comment in Hc. simpl in Hc.
    apply bind_Ok_inv in Hc as (usr & Husr & Hc).
    bind_inv Hc. inversion Hc; subst; clear Hc. simpl.
    destruct (py_truthy (default JNull (dict_lookup "user" comment_fields))).
    + apply bind_Ok_inv in Husr as (u & Hu & Hsome).
      inversion Hsome; subst. exists u. auto.
    + inversion Husr. reflexivity.
Qed.

Lemma owner_is_decoded_user_witness :
  let owned :=
    Recipe.mk (JNum 5) (JStr "") (JStr "") (JStr "") JNull (JStr "")
      (JBool false) (JNum 0) JNull [] (Some (plain_user 1 "Chef")) (JStr "")
      (JNum 0) (JNum 0) (JNum 0) [] (JStr "") (JStr "") (JStr "")
      (JBool false) in
  let orphan :=
    Comment.mk (JNum 6) (JStr "") (JStr "") (JStr "") None JNull (JStr "")
      (JNum 0) (JNum 0) in
  parse_recipe
    (JObj [("id", JNum 5); ("user", JObj [("id", JNum 1); ("name", JStr "Chef")])])
  = Ok owned
  /\ parse_comment (JObj [("id", JNum 6); ("user", JObj [])]) = Ok orphan
  /\ (exists u,
         parse_user (JObj [("id", JNum 1); ("name", JStr "Chef")]) = Ok u
         /\ Recipe.user owned = Some u)
  /\ Comment.user orphan = None.
Proof.
  intros owned orphan.
  split; [reflexivity|]. split; [reflexivity|].
  exact (owner_is_decoded_user
           [("id", JNum 5); ("user", JObj [("id", JNum 1); ("name", JStr "Chef")])]
           [("id", JNum 6); ("user", JObj [])] owned orphan eq_refl eq_refl).
Defined.

(** ** Lists are decoded item by item *)

Lemma traverse_Forall2 {A B} (f : A -> result B) xs ys :
  traverse f xs = Ok ys -> Forall2 (fun x y => f x = Ok y) xs ys.
Proof.
  revert ys. induction xs as [|x xs IH]; simpl; intros ys H.
  - inversion H. constructor.
  - apply bind_Ok_inv in H as (y & Hy & H).
    apply bind_Ok_inv in H as (ys' & Hys & H).
    inversion H; subst. constructor; auto.
Qed.

(** X6.  A users page and a comments page have one entry per item of
    [result], in the same order, each the decoding of its item: nothing is
    filtered out, unlike in a search listing. *)
Theorem page_entries_follow_items
  (users_fields comments_fields : list (string * json))
  (user_items comment_items : list json)
  (ur : UsersResponse.t) (cr : CommentsResponse.t) :
  result_items users_fields = Some user_items ->
  result_items comments_fields = Some comment_items ->
  parse_users_response (JObj users_fields) = Ok ur ->
  parse_comments_response (JObj comments_fields) = Ok cr ->
  Forall2 (fun item u => parse_user item = Ok u)
    user_items (UsersResponse.users ur)
  /\ Forall2 (fun item c => parse_comment item = Ok c)
       comment_items (CommentsResponse.comments cr)
  /\ length (UsersResponse.users ur) = length user_items
  /\ length (CommentsResponse.comments cr) = length comment_items.
Proof.
  intros Hui Hci Hur Hcr.
  apply result_items_iter in Hui, Hci.
  unfold parse_users_response in Hur. simpl in Hur. rewrite Hui in Hur.
  simpl in Hur. apply bind_Ok_inv in Hur as (us & Hus & Hur).
  apply bind_Ok_inv in Hur as (ex & _ & Hur). inversion Hur; subst; clear Hur.
  unfold parse_comments_response in Hcr. simpl in Hcr. rewrite Hci in Hcr.
  simpl in Hcr. apply bind_Ok_inv in Hcr as (cs & Hcs & Hcr).
  inversion Hcr; subst; clear Hcr. simpl.
  apply traverse_Forall2 in Hus, Hcs.
  repeat split; auto; symmetry; eapply Forall2_length; eauto.
Qed.

Lemma page_entries_follow_items_witness :
  length [plain_user 1 "User1"; plain_user 2 "User2"] = 2%nat
  /\ length [plain_comment 1 "Nice" "cur1"] = 1%nat.
Proof.
  destruct (page_entries_follow_items
              [("result", JArr [JObj [("id", JNum 1); ("name", JStr "User1")];
                                JObj [("id", JNum 2); ("name", JStr "User2")]])]
              [("result", JArr [JObj [("id", JNum 1); ("body", JStr "Nice");
                                      ("cursor", JStr "cur1")]])]
              [JObj [("id", JNum 1); ("name", JStr "User1")];
               JObj [("id", JNum 2); ("name", JStr "User2")]]
              [JObj [("id", JNum 1); ("body", JStr "Nice"); ("cursor", JStr "cur1")]]
              (UsersResponse.mk [plain_user 1 "User1"; plain_user 2 "User2"]
                 (JNum 0) JNull)
              (CommentsResponse.mk [plain_comment 1 "Nice" "cur1"] (JStr "cur1"))
              eq_refl eq_refl eq_refl eq_refl)
    as (_ & _ & Hu & Hc).
  split; [exact Hu | exact Hc].
Defined.

(** X7.  The ingredients and the steps of a decoded recipe follow the
    [ingredients] and [steps] lists of the payload item by item, in order;
    a missing key gives the empty list. *)
Theorem recipe_lists_follow_items
  (fields : list (string * json)) (r : Recipe.t) :
  parse_recipe (JObj fields) = Ok r ->
  (forall items, dict_lookup "ingredients" fields = Some (JArr items) ->
                 Forall2 (fun item i => parse_ingredient item = Ok i)
                   items (Recipe.ingredients r))
  /\ (forall items, dict_lookup "steps" fields = Some (JArr items) ->
                    Forall2 (fun item s => parse_step item = Ok s)
                      items (Recipe.steps r))
  /\ (dict_lookup "ingredients" fields = None -> Recipe.ingredients r = [])
  /\ (dict_lookup "steps" fields = None -> Recipe.steps r = []).
Proof.
  intros Hr. unfold parse_recipe in Hr. simpl in Hr.
  apply bind_Ok_inv in Hr as (url & _ & Hr).
  apply bind_Ok_inv in Hr as (usr & _ & Hr).
  apply bind_Ok_inv in Hr as (ing_items & Hii & Hr).
  apply bind_Ok_inv in Hr as (ings & Hings & Hr).
  apply bind_Ok_inv in Hr as (step_items & Hsi & Hr).
  apply bind_Ok_inv in Hr as (sts & Hsts & Hr).
  inversion Hr; subst; clear Hr. simpl.
  apply traverse_Forall2 in Hings, Hsts.
  split; [|split; [|split]].
  - intros items Hl. rewrite Hl in Hii. inversion Hii; subst. exact Hings.
  - intros items Hl. rewrite Hl in Hsi. inversion Hsi; subst. exact Hsts.
  - intros Hl. rewrite Hl in Hii. inversion Hii; subst. inversion Hings.
    reflexivity.
  - intros Hl. rewrite Hl in Hsi. inversion Hsi; subst. inversion Hsts.
    reflexivity.
Qed.

Lemma recipe_lists_follow_items_witness :
  Forall2 (fun item i => parse_ingredient item = Ok i)
    [JObj [("name", JStr "egg")]]
    [Ingredient.mk (JStr "egg") (JStr "") (JNum 0) (JBool false) (JStr "")]
  /\ Recipe.steps (summary_recipe 0 "") = [].
Proof.
  split.
  - apply (proj1 (recipe_lists_follow_items
                    [("ingredients", JArr [JObj [("name", JStr "egg")]])]
                    (Recipe.mk (JNum 0) (JStr "") (JStr "") (JStr "") JNull
                       (JStr "") (JBool false) (JNum 0) JNull
                       [Ingredient.mk (JStr "egg") (JStr "") (JNum 0)
                          (JBool false) (JStr "")]
                       None (JStr "") (JNum 0) (JNum 0) (JNum 0) [] (JStr "")
                       (JStr "") (JStr "") (JBool false))
                    eq_refl)).
    reflexivity.
  - apply (proj2 (proj2 (proj2 (recipe_lists_follow_items
                                  [("id", JNum 0)] (summary_recipe 0 "")
                                  eq_refl)))).
    reflexivity.
Defined.

(** ** Payloads of the wrong kind *)

Lemma recipe_cards_app pre rest rs :
  recipe_cards pre = Ok rs ->
  recipe_cards (pre ++ rest)%list
  = (do rs' <- recipe_cards rest; Ok (rs ++ rs')%list).
Proof.
  revert rs. induction pre as [|item pre IH]; simpl; intros rs H.
  - inversion H; subst. destruct (recipe_cards rest); reflexivity.
  - destruct (py_get item "type" JNull) as [ty|e]; simpl in *; [|discriminate].
    destruct (py_eq_str ty "search_results/recipe").
    + destruct (parse_recipe item) as [r|e]; simpl in *; [|discriminate].
      destruct (recipe_cards pre) as [rs0|e]; simpl in *; [|discriminate].
      inversion H; subst. rewrite (IH rs0 eq_refl).
      destruct (recipe_cards rest); reflexivity.
    + apply IH. exact H.
Qed.

(** X8.  An item of a search listing that is not an object makes
    [parse_search_response] raise [AttributeError], whatever follows it, once
    the items before it have been decoded. *)
Theorem search_listing_item_not_object
  (fields : list (string * json)) (pre post : list json) (x : json)
  (rs : list Recipe.t) :
  dict_lookup "result" fields = Some (JArr (pre ++ x :: post)%list) ->
  recipe_cards pre = Ok rs ->
  is_obj x = false ->
  parse_search_response (JObj fields) = Raise (builtin_exc AttributeError).
Proof.
  intros Hres Hpre Hx. unfold parse_search_response. simpl.
  rewrite Hres. simpl. rewrite (recipe_cards_app _ _ _ Hpre).
  destruct x; try discriminate Hx; reflexivity.
Qed.

Lemma search_listing_item_not_object_witness :
  parse_search_response
    (JObj [("result",
            JArr [JObj [("type", JStr "search_results/title")];
                  JStr "search_results/recipe";
                  JObj [("type", JStr "search_results/recipe")]])])
  = Raise (builtin_exc AttributeError).
Proof.
  apply (search_listing_item_not_object
           [("result",
             JArr [JObj [("type", JStr "search_results/title")];
                   JStr "search_results/recipe";
                   JObj [("type", JStr "search_results/recipe")]])]
           [JObj [("type", JStr "search_results/title")]]
           [JObj [("type", JStr "search_results/recipe")]]
           (JStr "search_results/recipe") []); reflexivity.
Defined.

Lemma parse_extra_wrong_kind fields v :
  dict_lookup "extra" fields = Some v ->
  is_obj v = false ->
  parse_extra (JObj fields) = Raise (builtin_exc AttributeError).
Proof.
  intros Hextra Hv. unfold parse_extra. simpl. rewrite Hextra. simpl.
  destruct v; try discriminate Hv; reflexivity.
Qed.

(** X9.  An [extra] that is present but not an object (an explicit null,
    say) is not taken as missing: [parse_search_response] and
    [parse_users_response] never return on such a payload, each raises
    [TypeError] or [AttributeError]; and each raises [AttributeError], at
    [extra.get], once its own items are decoded. *)
Theorem extra_of_wrong_kind_raises
  (fields : list (string * json)) (v : json) :
  dict_lookup "extra" fields = Some v ->
  is_obj v = false ->
  (exists e, parse_search_response (JObj fields) = Raise e /\ shape_error e)
  /\ (exists e, parse_users_response (JObj fields) = Raise e /\ shape_error e)
  /\ (forall items rs,
         result_items fields = Some items ->
         recipe_cards items = Ok rs ->
         parse_search_response (JObj fields)
         = Raise (builtin_exc AttributeError))
  /\ (forall items us,
         result_items fields = Some items ->
         traverse parse_user items = Ok us ->
         parse_users_response (JObj fields)
         = Raise (builtin_exc AttributeError)).
Proof.
  intros Hextra Hv.
  pose proof (parse_extra_wrong_kind fields v Hextra Hv) as He.
  split; [|split; [|split]].
  - unfold parse_search_response.
    change (py_get (JObj fields) "result" (JArr []))
      with (Ok (A:=json) (default (JArr []) (dict_lookup "result" fields))).
    cbn [bind].
    destruct (py_iter (default (JArr []) (dict_lookup "result" fields)))
      as [items|e] eqn:Hiter; cbn [bind].
    + destruct (recipe_cards items) as [rs|e] eqn:Hrs; cbn [bind].
      * rewrite He. eexists. split; [reflexivity | right; reflexivity].
      * exists e. split; [reflexivity | apply (ose_recipe_cards items e Hrs)].
    + exists e. split; [reflexivity | apply (ose_py_iter _ e Hiter)].
  - unfold parse_users_response.
    change (py_get (JObj fields) "result" (JArr []))
      with (Ok (A:=json) (default (JArr []) (dict_lookup "result" fields))).
    cbn [bind].
    destruct (py_iter (default (JArr []) (dict_lookup "result" fields)))
      as [items|e] eqn:Hiter; cbn [bind].
    + destruct (traverse parse_user items) as [us|e] eqn:Hus; cbn [bind].
      * rewrite He. eexists. split; [reflexivity | right; reflexivity].
      * exists e. split; [reflexivity|].
        apply (ose_traverse parse_user items ose_parse_user e Hus).
    + exists e. split; [reflexivity | apply (ose_py_iter _ e Hiter)].
  - intros items rs Hitems Hrs. apply result_items_iter in Hitems.
    unfold parse_search_response.
    change (py_get (JObj fields) "result" (JArr []))
      with (Ok (A:=json) (default (JArr []) (dict_lookup "result" fields))).
    cbn [bind]. rewrite Hitems. cbn [bind]. rewrite Hrs. cbn [bind].
    rewrite He. reflexivity.
  - intros items us Hitems Hus. apply result_items_iter in Hitems.
    unfold parse_users_response.
    change (py_get (JObj fields) "result" (JArr []))
      with (Ok (A:=json) (default (JArr []) (dict_lookup "result" fields))).
    cbn [bind]. rewrite Hitems. cbn [bind]. rewrite Hus. cbn [bind].
    rewrite He. reflexivity.
Qed.

(** A listing whose only item the search filter passes over but which does
    not decode as a user (its image is a string), with a null [extra]: the
    search response raises at [extra.get], the users response at the
    item. *)
Lemma extra_of_wrong_kind_raises_witness :
  let fields :=
    [("result", JArr [JObj [("type", JStr "search_results/title");
                            ("image", JStr "x")]]);
     ("extra", JNull)] in
  parse_search_response (JObj fields) = Raise (builtin_exc AttributeError)
  /\ (exists e, parse_users_response (JObj fields) = Raise e /\ shape_error e).
Proof.
  intros fields.
  destruct (extra_of_wrong_kind_raises fields JNull eq_refl eq_refl)
    as (_ & Husers & Hsearch & _).
  split; [|exact Husers].
  apply (Hsearch [JObj [("type", JStr "search_results/title");
                        ("image", JStr "x")]] []); reflexivity.
Defined.

(** X10.  An attachment that is not an object and that the scan reaches
    (every attachment before it is passed over) makes [parse_step] raise
    [TypeError] or [AttributeError]; the attachments after it are not
    looked at. *)
Theorem attachment_not_object_raises
  (fields : list (string * json)) (pre post : list json) (x : json) :
  dict_lookup "attachments" fields = Some (JArr (pre ++ x :: post)%list) ->
  forallb passed_over pre = true ->
  is_obj x = false ->
  exists e, parse_step (JObj fields) = Raise e /\ shape_error e.
Proof.
  intros Hatts Hpre Hx. unfold parse_step. simpl. rewrite Hatts. simpl.
  rewrite attachments_loop_passed_over by exact Hpre.
  destruct x as [| | |s|items|]; try discriminate Hx; simpl.
  - eexists; split; [reflexivity | left; reflexivity].
  - eexists; split; [reflexivity | left; reflexivity].
  - eexists; split; [reflexivity | left; reflexivity].
  - destruct (substringb "url" s); simpl;
      eexists; (split; [reflexivity|]); [left | right]; reflexivity.
  - destruct (existsb _ items); simpl;
      eexists; (split; [reflexivity|]); [left | right]; reflexivity.
Qed.

Lemma attachment_not_object_raises_witness :
  exists e,
    parse_step
      (JObj [("attachments",
              JArr [JObj [("id", JNum 1)]; JStr "https://example.com/a.jpg";
                    JObj [("url", JStr "https://example.com/b.jpg")]])])
    = Raise e
    /\ shape_error e.
Proof.
  apply (attachment_not_object_raises
           [("attachments",
             JArr [JObj [("id", JNum 1)]; JStr "https://example.com/a.jpg";
                   JObj [("url", JStr "https://example.com/b.jpg")]])]
           [JObj [("id", JNum 1)]]
           [JObj [("url", JStr "https://example.com/b.jpg")]]
           (JStr "https://example.com/a.jpg")); reflexivity.
Defined.

(** * Further properties of the client *)

(** The state a request leaves when the transport has sent it. *)
Lemma request_unfold E cfg path params st :
  handles_ok st ->
  let req := request_of E cfg path params st in
  let st' :=
    State (Some (request_handle st))
      (match _client st with
       | Some _ => next_handle st
       | None => S (next_handle st)
       end) (closed st) (sent st ++ [req]) (S (uuids_drawn st))
      (json_decodes st) in
  _request E cfg path params st
  = match server E (length (sent st)) req with
    | Raise e => (Raise e, st')
    | Ok resp =>
        if status_code resp =? 401
        then (Raise (Raised AuthenticationError "Authentication failed" None), st')
        else if status_code resp =? 404
        then (Raise (Raised NotFoundError ("Not found: " ++ path) None), st')
        else if status_code resp =? 429
        then (Raise (Raised RateLimitError "Rate limit exceeded" None), st')
        else if 400 <=? status_code resp
        then (Raise (Raised APIError
                       ("API error (" ++ decimal (status_code resp) ++ "): "
                        ++ text resp)
                       (Some (status_code resp))), st')
        else resp_json resp st'
    end.
Proof.
  intros Hok req st'.
  destruct (request_effects E cfg path params st Hok) as (_ & Hopen & _).
  subst req st'. unfold _request, request_of.
  assert (Hpre :
            match _client st with
            | Some h => (h, st)
            | None => let '(h, st0) := new_client st in (h, set_client (Some h) st0)
            end
            = (request_handle st,
               State (Some (request_handle st))
                 (match _client st with
                  | Some _ => next_handle st
                  | None => S (next_handle st)
                  end) (closed st) (sent st) (uuids_drawn st) (json_decodes st))).
  { unfold request_handle. destruct (_client st) eqn:Hcl; simpl; [|reflexivity].
    destruct st; simpl in *. subst. reflexivity. }
  rewrite Hpre. clear Hpre.
  unfold _headers, transport_get. simpl.
  destruct (decide (request_handle st ∈ closed st)) as [Hin|_]; [contradiction|].
  destruct (server E (length (sent st)) _) as [resp|e]; reflexivity.
Qed.

Lemma request_transport_failure E cfg path params st e :
  handles_ok st ->
  server E (length (sent st)) (request_of E cfg path params st) = Raise e ->
  fst (_request E cfg path params st) = Raise e
  /\ json_decodes (snd (_request E cfg path params st)) = json_decodes st.
Proof.
  intros Hok Hfail. rewrite (request_unfold E cfg path params st Hok).
  cbv zeta. rewrite Hfail. split; reflexivity.
Qed.

Lemma request_decodes_at_most_once E cfg path params st :
  handles_ok st ->
  (json_decodes st <= json_decodes (snd (_request E cfg path params st))
   <= S (json_decodes st))%nat.
Proof.
  intros Hok.
  destruct (server E (length (sent st)) (request_of E cfg path params st))
    as [resp|e] eqn:Hs.
  - destruct (request_outcome E cfg path params st resp Hok Hs) as [_ ->].
    destruct (400 <=? status_code resp); lia.
  - destruct (request_transport_failure E cfg path params st e Hok Hs)
      as [_ ->]. lia.
Qed.

(** ** The outcome of a call *)

(** X11.  When the server answers with a status below 400, the body is
    parsed once and the call returns what the operation makes of it; the
    exception of a body that is not JSON, or of one the decoder rejects, is
    raised as it is. *)
Theorem success_returns_decoded_body
  (E : environment) (cfg : config) (op : operation) (st : state)
  (resp : response) :
  handles_ok st ->
  server E (length (sent st))
    (request_of E cfg (op_path op) (op_params E op) st) = Ok resp ->
  status_code resp < 400 ->
  fst (call E cfg op st) = bind (json_body resp) (op_decode op)
  /\ json_decodes (snd (call E cfg op st)) = S (json_decodes st).
Proof.
  intros Hok Hresp Hstatus.
  destruct (request_outcome E cfg _ _ st resp Hok Hresp) as [Hfst Hdec].
  rewrite call_request. unfold and_then. simpl. rewrite Hfst, Hdec.
  assert (H401 : (status_code resp =? 401) = false) by (apply Z.eqb_neq; lia).
  assert (H404 : (status_code resp =? 404) = false) by (apply Z.eqb_neq; lia).
  assert (H429 : (status_code resp =? 429) = false) by (apply Z.eqb_neq; lia).
  assert (H400 : (400 <=? status_code resp) = false) by (apply Z.leb_gt; lia).
  rewrite H401, H404, H429, H400. split; reflexivity.
Qed.

Lemma success_returns_decoded_body_witness :
  fst (call empty_object_server default_config (SearchKeywords "cur") init_state)
  = Ok (VJson (JObj []))
  /\ json_decodes
       (snd (call empty_object_server default_config (SearchKeywords "cur")
               init_state))
     = 1%nat.
Proof.
  apply (success_returns_decoded_body empty_object_server default_config
           (SearchKeywords "cur") init_state
           (Response 200 "{}" (Ok (JObj []))) handles_ok_init eq_refl).
  simpl. lia.
Defined.

(** X12.  A failure of the transport itself is not wrapped: the call raises
    the very exception the transport raised, [resp.json()] is not called,
    and the client keeps the handle it used. *)
Theorem transport_failure_propagates
  (E : environment) (cfg : config) (op : operation) (st : state) (e : exn) :
  handles_ok st ->
  server E (length (sent st))
    (request_of E cfg (op_path op) (op_params E op) st) = Raise e ->
  fst (call E cfg op st) = Raise e
  /\ json_decodes (snd (call E cfg op st)) = json_decodes st
  /\ _client (snd (call E cfg op st)) = Some (request_handle st).
Proof.
  intros Hok Hfail.
  destruct (request_transport_failure E cfg _ _ st e Hok Hfail) as [Hfst Hdec].
  destruct (request_effects E cfg (op_path op) (op_params E op) st Hok)
    as (Hcl & _).
  rewrite call_request. unfold and_then. simpl. rewrite Hfst.
  split; [reflexivity|]. split; [exact Hdec | exact Hcl].
Qed.

Lemma transport_failure_propagates_witness :
  fst (call unreachable_server default_config (GetRecipe 1) init_state)
  = Raise (Raised TransportFailure "connection refused" None)
  /\ json_decodes
       (snd (call unreachable_server default_config (GetRecipe 1) init_state))
     = 0%nat
  /\ _client (snd (call unreachable_server default_config (GetRecipe 1)
                     init_state))
     = Some 0%nat.
Proof.
  apply (transport_failure_propagates unreachable_server default_config
           (GetRecipe 1) init_state
           (Raised TransportFailure "connection refused" None)
           handles_ok_init eq_refl).
Defined.

(** ** What a sequence of actions sends *)

Lemma call_effects E cfg op st :
  handles_ok st ->
  let st' := snd (call E cfg op st) in
  sent st' = (sent st ++ [request_of E cfg (op_path op) (op_params E op) st])%list
  /\ uuids_drawn st' = S (uuids_drawn st)
  /\ closed st' = closed st
  /\ (json_decodes st <= json_decodes st' <= S (json_decodes st))%nat.
Proof.
  intros Hok. rewrite call_request. simpl.
  destruct (request_effects E cfg (op_path op) (op_params E op) st Hok)
    as (_ & _ & Hclosed & Hsent & _ & Huu & _).
  pose proof (request_decodes_at_most_once E cfg (op_path op) (op_params E op)
                st Hok).
  auto.
Qed.

Lemma run_counts E cfg actions :
  let st := run E cfg actions in
  length (sent st) = length (List.filter is_call actions)
  /\ uuids_drawn st = length (List.filter is_call actions)
  /\ (json_decodes st <= length (List.filter is_call actions))%nat.
Proof.
  induction actions as [|a actions IH] using rev_ind; [simpl; auto|].
  rewrite run_snoc, List.filter_app, length_app. simpl in IH.
  destruct IH as (Hs & Hu & Hj).
  pose proof (handles_ok_run E cfg actions) as Hok.
  destruct a as [| |op]; simpl.
  - rewrite Nat.add_0_r. auto.
  - rewrite Nat.add_0_r. unfold __aexit__.
    destruct (_client (run E cfg actions)); simpl; auto.
  - destruct (call_effects E cfg op _ Hok) as (Hsent & Huu & _ & Hdec).
    rewrite Hsent, Huu, length_app. simpl. split; [|split]; lia.
Qed.

(** X13.  In every state a client reaches, a call of an operation sends
    exactly one request, draws exactly one UUID and parses at most one body,
    whether it returns or raises, while entering and leaving the scope send
    nothing, draw nothing and parse nothing.  Hence, over a whole sequence,
    the requests sent and the UUIDs drawn are as many as the calls, and the
    bodies parsed at most as many. *)
Theorem one_request_per_call
  (E : environment) (cfg : config) (actions : list action) (op : operation) :
  let st := run E cfg actions in
  let after := snd (call E cfg op st) in
  (length (sent after) = S (length (sent st))
   /\ uuids_drawn after = S (uuids_drawn st)
   /\ (json_decodes st <= json_decodes after <= S (json_decodes st))%nat)
  /\ (sent (__aenter__ st) = sent st
      /\ uuids_drawn (__aenter__ st) = uuids_drawn st
      /\ json_decodes (__aenter__ st) = json_decodes st)
  /\ (sent (__aexit__ st) = sent st
      /\ uuids_drawn (__aexit__ st) = uuids_drawn st
      /\ json_decodes (__aexit__ st) = json_decodes st)
  /\ (length (sent st) = length (List.filter is_call actions)
      /\ uuids_drawn st = length (List.filter is_call actions)
      /\ (json_decodes st <= length (List.filter is_call actions))%nat).
Proof.
  intros st after.
  pose proof (handles_ok_run E cfg actions) as Hok. fold st in Hok.
  destruct (call_effects E cfg op st Hok) as (Hsent & Huu & _ & Hdec).
  fold after in Hsent, Huu, Hdec.
  split; [|split; [|split]].
  - split; [|split; [exact Huu | exact Hdec]].
    rewrite Hsent, length_app. simpl. lia.
  - split; [|split]; reflexivity.
  - unfold __aexit__. destruct (_client st); split; try split; reflexivity.
  - exact (run_counts E cfg actions).
Qed.

Lemma run_sent_requests E cfg actions i req :
  sent (run E cfg actions) !! i = Some req ->
  req_headers req = headers_of E cfg i
  /\ (exists op, In (Call op) actions
                 /\ req_url req = BASE_URL ++ op_path op
                 /\ req_params req = op_params E op)
  /\ (req_handle req < next_handle (run E cfg actions))%nat.
Proof.
  revert i req.
  induction actions as [|a actions IH] using rev_ind; intros i req.
  - cbn. rewrite lookup_nil. discriminate.
  - rewrite run_snoc.
    pose proof (handles_ok_run E cfg actions) as Hok.
    destruct (run_counts E cfg actions) as (Hlen & Huu & _).
    assert (Hold : forall st',
               sent st' = sent (run E cfg actions) ->
               (next_handle (run E cfg actions) <= next_handle st')%nat ->
               sent st' !! i = Some req ->
               req_headers req = headers_of E cfg i
               /\ (exists op, In (Call op) (actions ++ [a])
                              /\ req_url req = BASE_URL ++ op_path op
                              /\ req_params req = op_params E op)
               /\ (req_handle req < next_handle st')%nat).
    { intros st' Hs Hn Hi. rewrite Hs in Hi.
      destruct (IH i req Hi) as (Hh & (op & Hin & Hurl & Hpar) & Hlt).
      split; [exact Hh|]. split; [|lia].
      exists op. split; [apply in_or_app; left; exact Hin | auto]. }
    destruct a as [| |op]; cbn [step].
    + apply Hold; cbn; [reflexivity | lia].
    + apply Hold; unfold __aexit__;
        destruct (_client (run E cfg actions)); cbn; auto.
    + clear Hold.
      destruct (call_effects E cfg op _ Hok) as (Hsent & _).
      assert (Hnext : (next_handle (run E cfg actions)
                       <= next_handle (snd (call E cfg op (run E cfg actions))))%nat
                      /\ (request_handle (run E cfg actions)
                          < next_handle (snd (call E cfg op (run E cfg actions))))%nat).
      { rewrite call_request. cbn [snd and_then].
        destruct (request_effects E cfg (op_path op) (op_params E op) _ Hok)
          as (Hcl & _ & _ & _ & Hnext & _ & Hok').
        destruct Hok' as [_ Hheld]. destruct (Hheld _ Hcl) as [_ Hlt].
        split; [|exact Hlt].
        rewrite Hnext. destruct (_client (run E cfg actions)); lia. }
      destruct Hnext as [Hmono Hreq].
      rewrite Hsent. intros Hi.
      apply lookup_app_Some in Hi as [Hi | [Hge Hi]].
      * destruct (IH i req Hi) as (Hh & (op' & Hin & Hurl & Hpar) & Hlt).
        split; [exact Hh|]. split; [|lia].
        exists op'. split; [apply in_or_app; left; exact Hin | auto].
      * apply list_lookup_singleton_Some in Hi as [Hi0 <-].
        assert (i = length (sent (run E cfg actions))) by lia. subst i.
        split; [|split].
        -- unfold request_of, headers_of, _headers. cbn [fst req_headers uuids_drawn].
           rewrite Huu, Hlen. reflexivity.
        -- exists op. split; [apply in_or_app; right; left; reflexivity|].
           split; reflexivity.
        -- exact Hreq.
Qed.

(** X14.  The [i]-th request a client sends carries the eleven headers of
    [_headers] built from the client's configuration and the [i]-th UUID
    drawn, in upper case: the host, the bearer token, and a correlation
    identifier that is drawn anew for each request.  Its URL is the base URL
    followed by the path of one of the operations called, its parameters are
    that operation's, and its handle is one the client created. *)
Theorem sent_request_shape
  (E : environment) (cfg : config) (actions : list action) (i : nat)
  (req : request) :
  sent (run E cfg actions) !! i = Some req ->
  length (req_headers req) = 11%nat
  /\ header "Host" (req_headers req) = Some API_HOST
  /\ header "Authorization" (req_headers req) = Some ("Bearer " ++ _token cfg)
  /\ header "X-Cookpad-Guid" (req_headers req) = Some (upper (uuid4 E i))
  /\ header "Accept-Language" (req_headers req) = Some (_language cfg)
  /\ header "User-Agent" (req_headers req) = Some (_user_agent cfg)
  /\ (exists op, In (Call op) actions
                 /\ req_url req = BASE_URL ++ op_path op
                 /\ req_params req = op_params E op)
  /\ (req_handle req < next_handle (run E cfg actions))%nat.
Proof.
  intros Hi.
  destruct (run_sent_requests E cfg actions i req Hi) as (Hh & Hop & Hlt).
  rewrite Hh. unfold headers_of, _headers. cbn [fst uuids_drawn].
  repeat (split; [reflexivity|]). split; assumption.
Qed.

Lemma sent_request_shape_witness :
  let actions := [Enter; Call (GetRecipe 7); Call (SearchKeywords "cur")] in
  exists req,
    sent (run empty_object_server default_config actions) !! 1%nat = Some req
    /\ header "X-Cookpad-Guid" (req_headers req)
       = Some "6F1C2A9E-0000-4000-8000-000000000000"
    /\ header "Host" (req_headers req) = Some "global-api.cookpad.com".
Proof.
  intros actions.
  eexists. split; [vm_compute; reflexivity|].
  destruct (sent_request_shape empty_object_server default_config actions
              1%nat _ ltac:(vm_compute; reflexivity))
    as (_ & Hhost & _ & Hguid & _).
  split; [exact Hguid | exact Hhost].
Defined.

(** ** Handles that are never closed *)

Lemma step_closed E cfg st a :
  handles_ok st -> is_exit a = false -> closed (step E cfg st a) = closed st.
Proof.
  intros Hok Ha. destruct a as [| |op]; try discriminate Ha; cbn [step].
  - reflexivity.
  - apply (call_effects E cfg op st Hok).
Qed.

(** X15.  Only leaving the scope closes a handle: after any sequence of
    scope entries and operations with no scope exit, no handle has been
    closed, although one has been created as soon as there was an action. *)
Theorem no_exit_no_close
  (E : environment) (cfg : config) (actions : list action) :
  forallb (fun a => negb (is_exit a)) actions = true ->
  closed (run E cfg actions) = ∅
  /\ (actions <> [] -> _client (run E cfg actions) <> None).
Proof.
  induction actions as [|a actions IH] using rev_ind; intros Hall.
  - split; [reflexivity | congruence].
  - rewrite forallb_app in Hall. apply andb_true_iff in Hall as [Hpre Ha].
    simpl in Ha. rewrite andb_true_r in Ha. apply negb_true_iff in Ha.
    destruct (IH Hpre) as [Hclosed _].
    pose proof (handles_ok_run E cfg actions) as Hok.
    rewrite run_snoc. split.
    + rewrite (step_closed E cfg _ a Hok Ha). exact Hclosed.
    + intros _. destruct a as [| |op]; try discriminate Ha; cbn [step].
      * discriminate.
      * rewrite call_request. cbn [snd and_then].
        destruct (request_effects E cfg (op_path op) (op_params E op) _ Hok)
          as (-> & _). discriminate.
Qed.

Lemma no_exit_no_close_witness :
  closed (run empty_object_server default_config
            [Call (GetRecipe 7); Enter; Call (SearchKeywords "cur")])
  = ∅.
Proof.
  apply (no_exit_no_close empty_object_server default_config
           [Call (GetRecipe 7); Enter; Call (SearchKeywords "cur")]).
  reflexivity.
Defined.

Lemma abandoned_step E cfg st a h :
  handles_ok st ->
  h ∉ closed st -> _client st <> Some h -> (h < next_handle st)%nat ->
  let st' := step E cfg st a in
  (h ∉ closed st') /\ _client st' <> Some h /\ (h < next_handle st')%nat.
Proof.
  intros Hok Hopen Hheld Hlt. destruct a as [| |op]; cbn [step].
  - cbn. split; [exact Hopen|]. split; [|lia]. intros [= Heq]. lia.
  - unfold __aexit__. destruct (_client st) as [h'|] eqn:Hcl; cbn.
    + split; [|split; [discriminate | exact Hlt]].
      intros Hin. apply elem_of_union in Hin as [Hin|Hin]; [|contradiction].
      apply elem_of_singleton in Hin. subst. congruence.
    + rewrite Hcl. auto.
  - rewrite call_request. cbn [snd and_then].
    destruct (request_effects E cfg (op_path op) (op_params E op) st Hok)
      as (Hcl & _ & Hclosed & _ & Hnext & _).
    rewrite Hcl, Hclosed, Hnext. split; [exact Hopen|]. split.
    + unfold request_handle. destruct (_client st) as [h'|].
      * congruence.
      * intros [= Heq]. lia.
    + destruct (_client st); lia.
Qed.

Lemma abandoned_fold E cfg actions st h :
  handles_ok st ->
  h ∉ closed st -> _client st <> Some h -> (h < next_handle st)%nat ->
  h ∉ closed (fold_left (step E cfg) actions st).
Proof.
  revert st. induction actions as [|a actions IH]; intros st Hok Ho Hh Hlt.
  - exact Ho.
  - simpl. destruct (abandoned_step E cfg st a h Hok Ho Hh Hlt) as (? & ? & ?).
    apply IH; auto. apply handles_ok_step, Hok.
Qed.

(** X16.  Entering the scope while the client already holds a handle
    replaces that handle without closing it, and nothing closes it later:
    whatever the client does afterwards, the replaced handle stays open. *)
Theorem reentry_abandons_handle
  (E : environment) (cfg : config) (before after : list action) (h : handle) :
  _client (run E cfg before) = Some h ->
  _client (run E cfg (before ++ [Enter])%list) <> Some h
  /\ h ∉ closed (run E cfg (before ++ Enter :: after)%list).
Proof.
  intros Hheld.
  pose proof (handles_ok_run E cfg before) as Hok.
  destruct Hok as [Hc Hh]. destruct (Hh h Hheld) as [Hopen Hlt].
  split.
  - rewrite run_snoc. cbn. intros [= Heq]. lia.
  - unfold run. rewrite fold_left_app. cbn [fold_left step].
    apply abandoned_fold.
    + apply handles_ok_aenter. split; assumption.
    + exact Hopen.
    + cbn. intros [= Heq]. fold (run E cfg before) in Heq. lia.
    + cbn. fold (run E cfg before). lia.
Qed.

Lemma reentry_abandons_handle_witness :
  0%nat ∉ closed (run empty_object_server default_config
                    [Enter; Enter; Call (GetRecipe 7); Exit]).
Proof.
  apply (proj2 (reentry_abandons_handle empty_object_server default_config
                  [Enter] [Call (GetRecipe 7); Exit] 0%nat eq_refl)).
Defined.

(** ** The parameters and the paths of the requests *)

(** X17.  [search_recipes] sends the ten fixed keys, among them
    [supported_types] with the comma-joined list of constants, plus
    [included_ingredients] and [excluded_ingredients] when those arguments
    are not empty, and no other key; the query, page and order are sent as
    given. *)
Theorem search_recipes_key_set
  (query : string) (page per_page : Z) (order : string)
  (must_have_cooksnaps : bool) (minimum_cooksnaps : Z)
  (must_have_photo_in_steps : bool)
  (included_ingredients excluded_ingredients : string) :
  let params :=
    search_recipes_params query page per_page order must_have_cooksnaps
      minimum_cooksnaps must_have_photo_in_steps included_ingredients
      excluded_ingredients in
  dom params
  = fixed_search_keys
      ∪ (if String.eqb included_ingredients "" then ∅
         else {["included_ingredients"]})
      ∪ (if String.eqb excluded_ingredients "" then ∅
         else {["excluded_ingredients"]})
  /\ params !! "supported_types" = Some (JStr SUPPORTED_SEARCH_TYPES)
  /\ params !! "query" = Some (JStr query)
  /\ params !! "page" = Some (JNum page)
  /\ params !! "per_page" = Some (JNum per_page)
  /\ params !! "order" = Some (JStr order)
  /\ params !! "minimum_number_of_cooksnaps" = Some (JNum minimum_cooksnaps).
Proof.
  intros params. subst params. unfold search_recipes_params. simpl.
  destruct (String.eqb included_ingredients ""),
           (String.eqb excluded_ingredients ""); simpl;
    (split; [|repeat split; reflexivity]);
    rewrite ?dom_insert_L, dom_empty_L; unfold fixed_search_keys; simpl;
    set_solver.
Qed.

(** ** The error classes *)

(** X18.  Catching [CookpadError] catches the four error kinds and nothing
    the interpreter or the transport raises; no error kind is a subclass of
    another, so catching [APIError] does not catch the 401, 404 and 429
    errors; and every class derives from [Exception]. *)
Theorem exception_hierarchy (c d : exc_class) :
  (issubclass c CookpadError = true <->
   In c [CookpadError; AuthenticationError; NotFoundError; RateLimitError;
         APIError])
  /\ (In c [AuthenticationError; NotFoundError; RateLimitError; APIError] ->
      In d [AuthenticationError; NotFoundError; RateLimitError; APIError] ->
      (issubclass c d = true <-> c = d))
  /\ issubclass c Exception = true
  /\ issubclass c c = true.
Proof.
  split; [|split; [|split]].
  - destruct c; simpl; split; intros H; try discriminate H; try reflexivity;
      intuition discriminate.
  - destruct c, d; simpl; intros Hc Hd; split; intros H;
      try discriminate H; try reflexivity; intuition discriminate.
  - destruct c; reflexivity.
  - destruct c; reflexivity.
Qed.

(** ** Recipe ids in paths *)

Lemma read_decimal_decimal n : read_decimal (decimal n) = Some n.
Proof.
  unfold read_decimal, decimal. rewrite NilZero.isi.
  - simpl. rewrite DecimalZ.of_to. reflexivity.
  - destruct n; simpl; try discriminate.
    intros [= H]. apply (DecimalPos.Unsigned.to_uint_nonnil _ H).
  - destruct n; simpl; try discriminate.
    intros [= H]. apply (DecimalPos.Unsigned.to_uint_nonnil _ H).
Qed.

(** X19.  The recipe id written into the path of [get_recipe] reads back as
    the same integer, so two ids are requested at the same path only when
    they are equal. *)
Theorem recipe_path_determines_id (a b : Z) :
  read_decimal (decimal a) = Some a
  /\ (op_path (GetRecipe a) = op_path (GetRecipe b) -> a = b).
Proof.
  split; [apply read_decimal_decimal|].
  simpl. intros H.
  assert (Hd : decimal a = decimal b) by (inversion H as [H']; exact H').
  pose proof (read_decimal_decimal a) as Ha.
  rewrite Hd, read_decimal_decimal in Ha. congruence.
Qed.

Lemma recipe_path_determines_id_witness :
  read_decimal (decimal 25410768) = Some 25410768
  /\ 25410768 = 25410768.
Proof.
  destruct (recipe_path_determines_id 25410768 25410768) as [Hread Hinj].
  split; [exact Hread | exact (Hinj eq_refl)].
Defined.

Lemma exception_hierarchy_witness :
  issubclass NotFoundError APIError = true <-> NotFoundError = APIError.
Proof.
  apply (proj1 (proj2 (exception_hierarchy NotFoundError APIError)));
    simpl; auto.
Defined.
